(** * CodeEmbedder: feature extraction, corpus, fit and similarity retrieval

    A shallow embedding of [src/models/code_embeddings.py].

    - Python values are modelled as the code has them: [str] as [string],
      [int] as [nat] (counts, lengths) or [Z] (the caller-supplied [top_k]),
      [float] as [Q] (every finite double is a rational, and ranking only
      compares similarities), the insertion-ordered [dict] as an association
      list, the [set] of operation tokens by its insertion history.
    - What the code imports from CPython, numpy and scikit-learn is not part
      of the repository; it is gathered in the record [Env] and theorems
      state the contracts they rely on as hypotheses.
    - Methods that read or write [self], print or raise run in the monad
      [M]: state passing over [CodeEmbedder], an output log and an
      exception result. *)

From Stdlib Require Import String Ascii List Bool Arith ZArith QArith Lia Lqa.
From Stdlib Require Import Permutation Sorted DecimalString DecimalNat.
Import ListNotations.

Open Scope string_scope.
Open Scope list_scope.
Open Scope nat_scope.

(* ================================================================== *)
(** ** Python built-ins used by the code *)

Module Py.

(** [str(n)] for a non-negative [int], as used by an f-string. *)
Definition str_of_nat (n : nat) : string :=
  NilEmpty.string_of_uint (Nat.to_uint n).

(** [sep.join(parts)]. *)
Definition join (sep : string) (parts : list string) : string :=
  String.concat sep parts.

(** [a[start:]] on a sequence: a negative [start] counts from the end,
    and both ends are clamped to the sequence. *)
Definition slice_from {A} (start : Z) (a : list A) : list A :=
  let n := Z.of_nat (length a) in
  let lo := if (start <? 0)%Z then Z.max 0 (start + n) else Z.min start n in
  skipn (Z.to_nat lo) a.

(** [a[::-1]]. *)
Definition reversed {A} (a : list A) : list A := rev a.

(** An insertion-ordered [dict] with [str] keys. *)
Definition dict (V : Type) : Type := list (string * V).

Fixpoint dict_get {V} (d : dict V) (k : string) : option V :=
  match d with
  | [] => None
  | (k', v) :: d' => if String.eqb k' k then Some v else dict_get d' k
  end.

(** [d[k] = v]: an existing key keeps its position, a new key goes last. *)
Fixpoint dict_set {V} (d : dict V) (k : string) (v : V) : dict V :=
  match d with
  | [] => [(k, v)]
  | (k', v') :: d' =>
      if String.eqb k' k then (k', v) :: d' else (k', v') :: dict_set d' k v
  end.

Definition keys {V} (d : dict V) : list string := map fst d.
Definition values {V} (d : dict V) : list V := map snd d.

(** A [set] of strings, represented by the distinct elements in the order
    in which they were first added. The order in which [list(s)] lists
    them is CPython's business (it depends on the string hashes, hence on
    the hash seed of the process) and is a field of [Env]. *)
Definition set_ : Type := list string.

Definition set_empty : set_ := [].

Definition set_mem (x : string) (s : set_) : bool :=
  existsb (String.eqb x) s.

Definition set_add (x : string) (s : set_) : set_ :=
  if set_mem x s then s else s ++ [x].

End Py.

(* ================================================================== *)
(** ** Syntax trees of the [ast] module *)

Module Ast.

(** The node classes of [ast]. The code tests [isinstance] against ten of
    them; the others only matter as inner nodes of the walk. *)
Inductive node_class : Set :=
(* statements *)
| FunctionDef | AsyncFunctionDef | ClassDef | Return | Delete
| Assign | AugAssign | AnnAssign | For | AsyncFor | While | If
| With | AsyncWith | Match | Raise | Try | TryStar | Assert | Import
| ImportFrom | Global | Nonlocal | Expr | Pass | Break | Continue | TypeAlias
(* expressions *)
| BoolOp | NamedExpr | BinOp | UnaryOp | Lambda | IfExp | Dict | Set_
| ListComp | SetComp | DictComp | GeneratorExp | Await | Yield | YieldFrom
| Compare | Call | FormattedValue | JoinedStr | Constant | Attribute
| Subscript | Starred | Name | List_ | Tuple | Slice
(* helpers *)
| arguments_ | arg_ | keyword | comprehension | ExceptHandler | alias
| withitem | match_case | pattern | type_param | context_or_operator.

Scheme Equality for node_class.

#[local] Set Warnings "-register-all".

(** A node with its child nodes in the order of [ast.iter_child_nodes]
    (field order; a list field contributes its items in sequence). *)
Inductive AST : Type :=
| Node (cls : node_class) (children : list AST).

Definition class_of (n : AST) : node_class :=
  match n with Node c _ => c end.

Definition iter_child_nodes (n : AST) : list AST :=
  match n with Node _ cs => cs end.

Definition isinstance (n : AST) (c : node_class) : bool :=
  node_class_beq (class_of n) c.

(** The attributes of an [ast.arg], [ast.arguments] and
    [ast.FunctionDef] object that the code reads by name, with the child
    nodes they hold. *)
Record arg : Type := mk_arg {
  arg_name : string;                 (* .arg *)
  annotation : option AST
}.

Record arguments : Type := mk_arguments {
  posonlyargs : list arg;
  args_ : list arg;                  (* .args *)
  vararg : option arg;
  kwonlyargs : list arg;
  kw_defaults : list (option AST);
  kwarg : option arg;
  defaults : list AST
}.

Record FunctionDefNode : Type := mk_FunctionDef {
  name : string;
  args : arguments;
  body : list AST;
  decorator_list : list AST;
  returns : option AST;
  type_params : list AST
}.

Definition opt_list {A} (o : option A) : list A :=
  match o with Some a => [a] | None => [] end.

Definition arg_node (a : arg) : AST :=
  Node arg_ (opt_list (annotation a)).

(** [arguments._fields]: posonlyargs, args, vararg, kwonlyargs,
    kw_defaults, kwarg, defaults. *)
Definition arguments_node (a : arguments) : AST :=
  Node arguments_
    (map arg_node (posonlyargs a) ++ map arg_node (args_ a)
     ++ opt_list (option_map arg_node (vararg a))
     ++ map arg_node (kwonlyargs a)
     ++ flat_map opt_list (kw_defaults a)
     ++ opt_list (option_map arg_node (kwarg a))
     ++ defaults a).

(** [FunctionDef._fields]: name, args, body, decorator_list, returns,
    type_comment, type_params. *)
Definition as_node (f : FunctionDefNode) : AST :=
  Node FunctionDef
    (arguments_node (args f) :: body f ++ decorator_list f
     ++ opt_list (returns f) ++ type_params f).

(** Depth-first, pre-order listing of a tree. *)
Fixpoint preorder (n : AST) : list AST :=
  match n with
  | Node _ cs => n :: flat_map preorder cs
  end.

(** [ast.walk]: a queue seeded with the node; each step pops the head,
    appends its children at the tail and yields it (breadth first). The
    loop is run on fuel; [None] means the fuel ran out. *)
Fixpoint walk_queue (fuel : nat) (todo : list AST) : option (list AST) :=
  match fuel with
  | 0 => match todo with [] => Some [] | _ :: _ => None end
  | S fuel' =>
      match todo with
      | [] => Some []
      | node :: rest =>
          option_map (cons node)
            (walk_queue fuel' (rest ++ iter_child_nodes node))
      end
  end.

Definition walk (n : AST) : list AST :=
  match walk_queue (length (preorder n)) [n] with
  | Some l => l
  | None => []
  end.

End Ast.

(* ================================================================== *)
(** ** What the code imports *)

(** A sparse float matrix, row by row. *)
Definition Matrix : Type := list (list Q).

Record Env : Type := mk_Env {
  (** CPython: [list(s)] for a set built by adding the given distinct
      strings in the given order. *)
  set_iter : Py.set_ -> list string;
  (** hashlib: [md5(s.encode()).hexdigest()]. *)
  md5_hexdigest : string -> string;
  (** numpy: [a.argsort()] of a one-dimensional float array. *)
  argsort : list Q -> list nat;
  (** scikit-learn: the state of a [TfidfVectorizer] object, *)
  Vectorizer : Type;
  (** the object made by [TfidfVectorizer(max_features=1000,
      stop_words='english', ngram_range=(1,2))], *)
  TfidfVectorizer : Vectorizer;
  (** [fit_transform(docs)]: the fitted object and the document matrix
      (sklearn raises on documents without a single term; a feature string
      always has its [func_] and [args_] tokens), *)
  fit_transform : Vectorizer -> list string -> Vectorizer * Matrix;
  (** [transform(docs)]; [None] when sklearn raises [NotFittedError], *)
  transform : Vectorizer -> list string -> option Matrix;
  (** [len(vocabulary_)] of a fitted object, *)
  vocabulary_len : Vectorizer -> nat;
  (** and [sklearn.metrics.pairwise.cosine_similarity(X, Y)]. *)
  cosine_similarity : Matrix -> Matrix -> Matrix
}.

(* ================================================================== *)
(** ** Feature extraction *)

Section Extractor.

Variable E : Env.

Import Ast.

(** One pass of the six [if isinstance(...)] tests of
    [_extract_operations] on a node of the walk. *)
Definition operations_step (operations : Py.set_) (child : AST) : Py.set_ :=
  let operations :=
    if isinstance child Call
    then Py.set_add "operation_call" operations else operations in
  let operations :=
    if isinstance child Assign
    then Py.set_add "operation_assign" operations else operations in
  let operations :=
    if isinstance child AugAssign
    then Py.set_add "operation_aug_assign" operations else operations in
  let operations :=
    if isinstance child Compare
    then Py.set_add "operation_compare" operations else operations in
  let operations :=
    if isinstance child BinOp
    then Py.set_add "operation_math" operations else operations in
  let operations :=
    if isinstance child Subscript
    then Py.set_add "operation_subscript" operations else operations in
  operations.

Definition operations_set (node : AST) : Py.set_ :=
  fold_left operations_step (walk node) Py.set_empty.

Definition _extract_operations (node : AST) : list string :=
  set_iter E (operations_set node).

Definition count_class (c : node_class) (nodes : list AST) : nat :=
  length (filter (fun child => isinstance child c) nodes).

Definition _extract_complexity_features (node : AST) : list string :=
  let if_counts := count_class If (walk node) in
  let for_counts := count_class For (walk node) in
  let while_counts := count_class While (walk node) in
  let features := [] in
  let features :=
    if 3 <? if_counts
    then features ++ ["High_conditional_complexity"] else features in
  let features :=
    if 2 <? for_counts + while_counts
    then features ++ ["High_loop_complexity"] else features in
  features.

Definition _extract_return_pattern (node : AST) : string :=
  let return_nodes := filter (fun n => isinstance n Return) (walk node) in
  match return_nodes with
  | [] => "return_none"
  | [_] => "return_single"
  | _ => "return_multiple"
  end.

(** The list [features] of [extract_code_features] just before the join. *)
Definition feature_list (function_node : FunctionDefNode) : list string :=
  let features := [] in
  let features := features ++ [("func_" ++ name function_node)%string] in
  let features :=
    features
    ++ [("args_"
         ++ Py.str_of_nat (length (args_ (args function_node))))%string] in
  let operations := _extract_operations (as_node function_node) in
  let features := features ++ operations in
  let complexity_features :=
    _extract_complexity_features (as_node function_node) in
  let features := features ++ complexity_features in
  let return_pattern := _extract_return_pattern (as_node function_node) in
  let features := features ++ [return_pattern] in
  features.

Definition extract_code_features (function_node : FunctionDefNode) : string :=
  Py.join " " (feature_list function_node).

End Extractor.

(* ================================================================== *)
(** ** The embedder object and its methods *)

(** The exceptions that the methods can raise. *)
Inductive exn : Set :=
| AttributeError (attribute : string)
| UnboundLocalError (variable : string)
| IndexError
| KeyError (key : string)
| NotFittedError.

Section Embedder.

Variable E : Env.

Import Ast.

(** A value of [function_database]. *)
Record FunctionData : Type := mk_FunctionData {
  data_features : string;            (* 'features' *)
  data_quality_score : Q;            (* 'quality_score' *)
  data_name : string;                (* 'name' *)
  data_node : FunctionDefNode        (* 'node' *)
}.

(** The instance attributes. [__init__] assigns [vectorizer] and
    [function_database] only; [embedding_vectors] and [is_fitted] do not
    exist on the object until [fit_embeddings] assigns them ([None]). *)
Record CodeEmbedder : Type := mk_CodeEmbedder {
  vectorizer : Vectorizer E;
  function_database : Py.dict FunctionData;
  embedding_vectors : option Matrix;
  is_fitted : option bool
}.

(** An entry of the list that [find_similar_functions] returns. *)
Record Match_ : Type := mk_Match {
  function_id : string;
  match_name : string;
  similarity : Q;
  quality_score : Q;
  features : string
}.

(** Computations on [self]: the result or the exception raised, the
    object afterwards and the lines printed. *)
Definition M (A : Type) : Type :=
  CodeEmbedder -> (exn + A) * CodeEmbedder * list string.

Definition ret {A} (a : A) : M A := fun self => (inr a, self, []).

Definition bind {A B} (m : M A) (k : A -> M B) : M B :=
  fun self =>
    match m self with
    | (inl e, self', out) => (inl e, self', out)
    | (inr a, self', out) =>
        match k a self' with
        | (r, self'', out') => (r, self'', out ++ out')
        end
    end.

Definition raise {A} (e : exn) : M A := fun self => (inl e, self, []).

Definition print (line : string) : M unit := fun self => (inr tt, self, [line]).

Definition get : M CodeEmbedder := fun self => (inr self, self, []).

Definition put (self' : CodeEmbedder) : M unit := fun _ => (inr tt, self', []).

(** [self.<attribute>] for an attribute that may not exist yet. *)
Definition getattr {A} (attribute : string) (read : CodeEmbedder -> option A)
  : M A :=
  fun self =>
    match read self with
    | Some a => (inr a, self, [])
    | None => (inl (AttributeError attribute), self, [])
    end.

(** A step that can raise but touches neither [self] nor the output. *)
Definition lift {A} (r : exn + A) : M A := fun self => (r, self, []).

Definition value {A} (r : (exn + A) * CodeEmbedder * list string) : exn + A :=
  fst (fst r).
Definition self_after {A} (r : (exn + A) * CodeEmbedder * list string)
  : CodeEmbedder := snd (fst r).
Definition printed {A} (r : (exn + A) * CodeEmbedder * list string)
  : list string := snd r.

Notation "x <- m ;; k" := (bind m (fun x => k))
  (at level 61, m at next level, right associativity).
Notation "m ;;; k" := (bind m (fun _ => k))
  (at level 61, right associativity).

Definition __init__ : CodeEmbedder :=
  {| vectorizer := TfidfVectorizer E;
     function_database := [];
     embedding_vectors := None;
     is_fitted := None |}.

Definition add_function_to_database
    (function_node : FunctionDefNode) (quality_score : Q) : M string :=
  self <- get ;;
  let features := extract_code_features E function_node in
  let function_id :=
    (name function_node ++ "_"
     ++ substring 0 8 (md5_hexdigest E features))%string in
  put {| vectorizer := vectorizer self;
         function_database :=
           Py.dict_set (function_database self) function_id
             {| data_features := features;
                data_quality_score := quality_score;
                data_name := name function_node;
                data_node := function_node |};
         embedding_vectors := embedding_vectors self;
         is_fitted := is_fitted self |} ;;;
  ret function_id.

Definition fit_embeddings : M unit :=
  self <- get ;;
  match function_database self with
  | [] => print "No function database to learn from"
  | _ :: _ =>
      let feature_texts :=
        map data_features (Py.values (function_database self)) in
      let fitted := fit_transform E (vectorizer self) feature_texts in
      put {| vectorizer := fst fitted;
             function_database := function_database self;
             embedding_vectors := Some (snd fitted);
             is_fitted := is_fitted self |} ;;;
      self <- get ;;
      put {| vectorizer := vectorizer self;
             function_database := function_database self;
             embedding_vectors := embedding_vectors self;
             is_fitted := Some true |} ;;;
      print ("Learned embeddings for "
             ++ Py.str_of_nat (length feature_texts) ++ " functions")%string ;;;
      self <- get ;;
      print ("Vocabulary size : "
             ++ Py.str_of_nat (vocabulary_len E (vectorizer self)))%string
  end.

(** Line 151: [similarities[0].argsort()[-top_k:][::-1]]. *)
Definition similar_indices (row : list Q) (top_k : Z) : list nat :=
  Py.reversed (Py.slice_from (- top_k) (argsort E row)).

(** The local variables that the [for] loop of [find_similar_functions]
    assigns; they are unbound until its body has run once. *)
Definition loop_locals : Type := option (nat * string * FunctionData).

(** The loop of lines 155-157: its body only rebinds [function_id] and
    [function_data]. *)
Fixpoint for_idx (function_ids : list string) (db : Py.dict FunctionData)
    (idxs : list nat) (locals : loop_locals) : exn + loop_locals :=
  match idxs with
  | [] => inr locals
  | idx :: idxs' =>
      match nth_error function_ids idx with
      | None => inl IndexError
      | Some function_id =>
          match Py.dict_get db function_id with
          | None => inl (KeyError function_id)
          | Some function_data =>
              for_idx function_ids db idxs'
                (Some (idx, function_id, function_data))
          end
      end
  end.

Definition find_similar_functions
    (target_function : FunctionDefNode) (top_k : Z) : M (list Match_) :=
  fitted <- getattr "is_fitted" is_fitted ;;
  if negb fitted then
    print "Embeddings not fitted yet - call fit_embeddings() first" ;;;
    ret []
  else
    self <- get ;;
    let target_features := extract_code_features E target_function in
    target_vector <-
      lift (match transform E (vectorizer self) [target_features] with
            | Some v => inr v
            | None => inl NotFittedError
            end) ;;
    embedding <- getattr "embedding_vectors" embedding_vectors ;;
    let similarities := cosine_similarity E target_vector embedding in
    row <- lift (match nth_error similarities 0 with
                 | Some r => inr r
                 | None => inl IndexError
                 end) ;;
    let similar_indices := similar_indices row top_k in
    let function_ids := Py.keys (function_database self) in
    let results := [] in
    locals <-
      lift (for_idx function_ids (function_database self)
              similar_indices None) ;;
    match locals with
    | None => raise (UnboundLocalError "function_id")
    | Some (idx, function_id, function_data) =>
        sim <- lift (match nth_error row idx with
                     | Some x => inr x
                     | None => inl IndexError
                     end) ;;
        ret (results
             ++ [ {| function_id := function_id;
                     match_name := data_name function_data;
                     similarity := sim;
                     quality_score := data_quality_score function_data;
                     features := data_features function_data |} ])
    end.

End Embedder.

Arguments value {E A} r.
Arguments self_after {E A} r.
Arguments printed {E A} r.
Arguments vectorizer {E} c.
Arguments function_database {E} c.
Arguments embedding_vectors {E} c.
Arguments is_fitted {E} c.

(* ================================================================== *)
(** ** Contracts of the imported operations *)

(** [list(s)] lists the elements of the set, each once, in some order. *)
Definition SetIterOk (E : Env) : Prop :=
  forall s : Py.set_, NoDup s -> Permutation (set_iter E s) s.

Definition at_ (row : list Q) (i : nat) : Q := nth i row 0%Q.

(** [argsort] returns the indices of the array, ordered so that the values
    ascend. numpy's default sort kind is not stable: nothing is promised on
    the order of indices of equal values. *)
Definition ArgsortOk (E : Env) : Prop :=
  forall row : list Q,
    Permutation (argsort E row) (seq 0 (length row))
    /\ StronglySorted (fun i j => (at_ row i <= at_ row j)%Q) (argsort E row).

(** A vectorizer on which [transform] works: one row per document. *)
Definition VFitted (E : Env) (v : Vectorizer E) : Prop :=
  forall docs, exists X, transform E v docs = Some X /\ length X = length docs.

(** Shapes: [fit_transform] leaves a fitted vectorizer and a matrix with one
    row per document; [cosine_similarity X Y] has a row per row of [X] with
    an entry per row of [Y]. *)
Definition SklearnOk (E : Env) : Prop :=
  (forall v docs, VFitted E (fst (fit_transform E v docs)))
  /\ (forall v docs, length (snd (fit_transform E v docs)) = length docs)
  /\ (forall X Y, length (cosine_similarity E X Y) = length X
                  /\ Forall (fun r => length r = length Y)
                       (cosine_similarity E X Y)).

(* ================================================================== *)
(** ** An executable instance of [Env]

    Used to run the methods on concrete inputs. The set order and the sort
    are stable insertion sorts (for the set: by a slot number, as a small
    hash table would list them; for [argsort]: by value, as numpy's generic
    sort does on short arrays); the digest and the vector space are small
    stand-ins with the shapes of the real ones. *)

Section Insertion.

Context {A : Type} (leb : A -> A -> bool).

Fixpoint insert (x : A) (l : list A) : list A :=
  match l with
  | [] => [x]
  | y :: l' => if leb x y then x :: l else y :: insert x l'
  end.

Definition isort (l : list A) : list A := fold_right insert [] l.

End Insertion.

Module Demo.

Definition code_sum (s : string) : nat :=
  fold_right (fun c acc => nat_of_ascii c + acc) 0 (list_ascii_of_string s).

(** Set order: by slot in a table of eight. *)
Definition set_iter (s : Py.set_) : list string :=
  isort (fun a b => code_sum a mod 8 <=? code_sum b mod 8) s.

Definition hex_digit (n : nat) : ascii :=
  nth n (list_ascii_of_string "0123456789abcdef") "0"%char.

(** A 32-character hexadecimal digest (a stand-in, not MD5). *)
Definition digest (s : string) : string :=
  let h := fold_left (fun acc c => (acc * 31 + N_of_ascii c) mod 2 ^ 32)%N
             (list_ascii_of_string s) 7%N in
  string_of_list_ascii
    (map (fun k => hex_digit (N.to_nat ((h / 16 ^ N.of_nat (k mod 8)) mod 16)%N))
       (seq 0 32)).

Definition argsort (row : list Q) : list nat :=
  isort (fun i j => Qle_bool (at_ row i) (at_ row j)) (seq 0 (length row)).

(** Tokens of a feature string: split at spaces. *)
Fixpoint split_acc (cur : string) (s : string) : list string :=
  match s with
  | EmptyString => [cur]
  | String c s' =>
      if Ascii.eqb c " "%char then cur :: split_acc EmptyString s'
      else split_acc (cur ++ String c EmptyString)%string s'
  end.

Definition tokens (doc : string) : list string := split_acc EmptyString doc.

Definition has (doc : string) (term : string) : bool :=
  existsb (String.eqb term) (tokens doc).

(** The vocabulary once fitted: the tokens of the documents. *)
Definition Vectorizer : Type := option (list string).

Definition bag (vocabulary : list string) (doc : string) : list Q :=
  map (fun term => if has doc term then 1%Q else 0%Q) vocabulary.

Definition fit_transform (_ : Vectorizer) (docs : list string)
  : Vectorizer * Matrix :=
  let vocabulary := nodup string_dec (flat_map tokens docs) in
  (Some vocabulary, map (bag vocabulary) docs).

Definition transform (v : Vectorizer) (docs : list string) : option Matrix :=
  match v with
  | None => None
  | Some vocabulary => Some (map (bag vocabulary) docs)
  end.

Definition dot (x y : list Q) : Q :=
  fold_right Qplus 0%Q (map (fun p => (fst p * snd p)%Q) (combine x y)).

(** The squared cosine, which is rational and ranks non-negative vectors
    as the cosine does; [0] when a vector is null. *)
Definition overlap (x y : list Q) : Q :=
  let d := (dot x x * dot y y)%Q in
  if Qeq_bool d 0 then 0%Q else Qred (dot x y * dot x y / d)%Q.

Definition cosine_similarity (X Y : Matrix) : Matrix :=
  map (fun x => map (overlap x) Y) X.

Definition env : Env :=
  mk_Env set_iter digest argsort Vectorizer None fit_transform transform
    (fun v => match v with Some l => length l | None => 0 end)
    cosine_similarity.

(** The same, in a process whose hash seed makes the set list its
    elements in the order of insertion. *)
Definition env_insertion_order : Env :=
mk_Env (fun s => s) digest argsort Vectorizer None fit_transform transform
  (fun v => match v with Some l => length l | None => 0 end)
  cosine_similarity.

End Demo.

(* ================================================================== *)
(** ** Sample function nodes

    The functions that [demonstrate_embeddings] parses, as the trees
    [ast.parse] builds for them. *)

Module Samples.

Import Ast.

Definition ctx : AST := Node context_or_operator [].
Definition op : AST := Node context_or_operator [].
Definition name_ : AST := Node Name [ctx].
Definition const : AST := Node Constant [].
Definition attr (value : AST) : AST := Node Attribute [value; ctx].
Definition plain (names : list string) : arguments :=
  mk_arguments [] (map (fun n => mk_arg n None) names) None [] [] None [].
Definition def (name : string) (a : arguments) (body : list AST)
  : FunctionDefNode := mk_FunctionDef name a body [] None [].

(** total = 0 / for item in items: total += item.price * item.quantity /
    return total *)
Definition calculate_total : FunctionDefNode :=
  def "calculate_total" (plain ["items"])
    [ Node Assign [name_; const];
      Node For
        [ name_; name_;
          Node AugAssign
            [name_; op; Node BinOp [attr name_; op; attr name_]] ];
      Node Return [name_] ].

(** result = [] / for user in users: if user.active: user_data = {...};
    result.append(user_data) / return result *)
Definition process_user_data : FunctionDefNode :=
  def "process_user_data" (plain ["users"])
    [ Node Assign [name_; Node List_ [ctx]];
      Node For
        [ name_; name_;
          Node If
            [ attr name_;
              Node Assign
                [ name_;
                  Node Dict
                    [ const; const; attr name_;
                      Node Call [attr name_] ] ];
              Node Expr [Node Call [attr name_; name_]] ] ];
      Node Return [name_] ].

(** errors = [] / for field, value in data.items(): if field in rules:
    if not rules[field](value): errors.append(f"{field} is invalid") /
    return len(errors) == 0, errors *)
Definition validate_input : FunctionDefNode :=
  def "validate_input" (plain ["data"; "rules"])
    [ Node Assign [name_; Node List_ [ctx]];
      Node For
        [ Node Tuple [name_; name_; ctx];
          Node Call [attr name_];
          Node If
            [ Node Compare [name_; op; name_];
              Node If
                [ Node UnaryOp
                    [op; Node Call [Node Subscript [name_; name_; ctx]; name_]];
                  Node Expr
                    [ Node Call
                        [ attr name_;
                          Node JoinedStr
                            [Node FormattedValue [name_]; const] ] ] ] ] ];
      Node Return
        [ Node Tuple
            [ Node Compare [Node Call [name_; name_]; op; const];
              name_; ctx ] ] ].

(** summary = 0 / for order in orders: if order.valid:
    summary += order.amount / return summary *)
Definition compute_order_summary : FunctionDefNode :=
  def "compute_order_summary" (plain ["orders"])
    [ Node Assign [name_; const];
      Node For
        [ name_; name_;
          Node If [attr name_; Node AugAssign [name_; op; attr name_]] ];
      Node Return [name_] ].

(** def f(a, *rest): pass *)
Definition with_vararg : FunctionDefNode :=
  def "f" (mk_arguments [] [mk_arg "a" None] (Some (mk_arg "rest" None))
             [] [] None [])
    [Node Pass []].

(** if c: x += 1 / y = 2 *)
Definition nested_first : FunctionDefNode :=
  def "g" (plain [])
    [ Node If [name_; Node AugAssign [name_; op; const]];
      Node Assign [name_; const] ].

(** y = 2 / x += 1 *)
Definition flat_first : FunctionDefNode :=
  def "g" (plain [])
    [ Node Assign [name_; const];
      Node AugAssign [name_; op; const] ].

End Samples.

(* ================================================================== *)
(** ** Definitions used to state the properties *)

(** The token of each of the six operation kinds. *)
Definition operation_token (c : Ast.node_class) : option string :=
  match c with
  | Ast.Call => Some "operation_call"
  | Ast.Assign => Some "operation_assign"
  | Ast.AugAssign => Some "operation_aug_assign"
  | Ast.Compare => Some "operation_compare"
  | Ast.BinOp => Some "operation_math"
  | Ast.Subscript => Some "operation_subscript"
  | _ => None
  end.

Definition operation_tokens : list string :=
  [ "operation_call"; "operation_assign"; "operation_aug_assign";
    "operation_compare"; "operation_math"; "operation_subscript" ].

(** The operations channel in the words of the specification: the kinds
    met in a depth-first traversal, each listed where it is first seen. *)
Fixpoint first_seen (tokens seen : list string) : list string :=
  match tokens with
  | [] => []
  | t :: tokens' =>
      if Py.set_mem t seen then first_seen tokens' seen
      else t :: first_seen tokens' (t :: seen)
  end.

Definition spec_operations (node : Ast.AST) : list string :=
  first_seen
    (flat_map (fun n => Ast.opt_list (operation_token (Ast.class_of n)))
       (Ast.preorder node))
    [].

(** The tokens of the operations, complexity and return-pattern channels. *)
Definition structural_tokens : list string :=
  operation_tokens
  ++ [ "High_conditional_complexity"; "High_loop_complexity";
       "return_none"; "return_single"; "return_multiple" ].

(** [p in s] for strings. *)
Fixpoint contains (p s : string) : bool :=
  String.prefix p s
  || match s with
     | EmptyString => false
     | String _ s' => contains p s'
     end.

(** The order of the specification: by similarity descending, equal
    similarities by row index ascending. *)
Definition spec_rank_order (row : list Q) (i j : nat) : Prop :=
  (at_ row j < at_ row i)%Q \/ ((at_ row i == at_ row j)%Q /\ i < j).

(** The embedder was fitted when its corpus had the keys [snapshot], giving
    the matrix [X]; records may have been added since. *)
Definition FittedOn {E : Env} (self : CodeEmbedder E) (X : Matrix)
    (snapshot : list string) : Prop :=
  is_fitted self = Some true
  /\ embedding_vectors self = Some X
  /\ VFitted E (vectorizer self)
  /\ length X = length snapshot
  /\ exists later, Py.keys (function_database self) = snapshot ++ later.

(** A run of [add_function_to_database] calls. *)
Definition add_all (E : Env) (adds : list (Ast.FunctionDefNode * Q))
    (self : CodeEmbedder E) : CodeEmbedder E :=
  fold_left
    (fun s fq => self_after (add_function_to_database E (fst fq) (snd fq) s))
    adds self.

(** The corpus of the demonstration, cut to its first two functions. *)
Definition two_records : CodeEmbedder Demo.env :=
  add_all Demo.env
    [ (Samples.calculate_total, 9 # 10); (Samples.process_user_data, 9 # 10) ]
    (__init__ Demo.env).

(** The corpus of the demonstration. *)
Definition three_records : CodeEmbedder Demo.env :=
  add_all Demo.env [ (Samples.validate_input, 9 # 10) ] two_records.

(* ================================================================== *)
(** ** Further string built-ins *)

Module PyStr.

(** [c.isspace()] for a character below 256: the ASCII blanks and
    separators, NEL and the no-break space. *)
Definition isspace (c : ascii) : bool :=
let n := nat_of_ascii c in
((9 <=? n) && (n <=? 13)) || ((28 <=? n) && (n <=? 32))
|| (n =? 133) || (n =? 160).

(** [s.split()]: the maximal runs of characters that are not blanks.
    [cur] is the run being read. *)
Fixpoint split_from (cur : string) (s : string) : list string :=
match s with
| EmptyString =>
    match cur with EmptyString => [] | String _ _ => [cur] end
| String c s' =>
    if isspace c then
      match cur with
      | EmptyString => split_from EmptyString s'
      | String _ _ => cur :: split_from EmptyString s'
      end
    else split_from (cur ++ String c EmptyString)%string s'
end.

Definition split (s : string) : list string := split_from EmptyString s.

(** [s.lstrip()], [s.rstrip()] and [s.strip()]. *)
Fixpoint lstrip (s : string) : string :=
match s with
| EmptyString => EmptyString
| String c s' => if isspace c then lstrip s' else s
end.

Definition reverse (s : string) : string :=
string_of_list_ascii (rev (list_ascii_of_string s)).

Definition rstrip (s : string) : string := reverse (lstrip (reverse s)).

Definition strip (s : string) : string := rstrip (lstrip s).

(** No character of [s] is a blank. *)
Fixpoint no_blank (s : string) : bool :=
match s with
| EmptyString => true
| String c s' => negb (isspace c) && no_blank s'
end.

(** Every character of [s] is a blank ([s] may be empty). *)
Fixpoint all_blank (s : string) : bool :=
match s with
| EmptyString => true
| String c s' => isspace c && all_blank s'
end.

(** [x in l] for a list of strings. *)
Definition in_list (x : string) (l : list string) : bool :=
existsb (String.eqb x) l.

(** [bool(s)] for a string. *)
Definition truthy (s : string) : bool :=
match s with EmptyString => false | String _ _ => true end.

End PyStr.

(* ================================================================== *)
(** ** The callers in [evaluation/embedding_analyzer.py] *)

(** [_initialize_quality_patterns]. *)
Definition high_quality_indicators : list string :=
[ "func_calculate"; "func_process"; "func_validate";
  "return_single";
  "args_2"; "args_3" ].

Definition low_quality_indicators : list string :=
[ "high_conditional_complexity";
  "high_loop_complexity";
  "args_5"; "args_6"; "args_7" ].

Section EmbeddingAnalyzer.

Variable E : Env.

(** The two comprehensions of [_pattern_based_analysis]. *)
Definition quality_matches (function : Ast.FunctionDefNode) : list string :=
let features := extract_code_features E function in
let feature_list := PyStr.split features in
filter (fun f => PyStr.in_list f high_quality_indicators) feature_list.

Definition issues_matches (function : Ast.FunctionDefNode) : list string :=
let features := extract_code_features E function in
let feature_list := PyStr.split features in
filter (fun f => PyStr.in_list f low_quality_indicators) feature_list.

Definition _pattern_based_analysis (function : Ast.FunctionDefNode)
  : list string :=
let insights := [] in
let quality_matches := quality_matches function in
let issues_matches := issues_matches function in
let insights :=
  match quality_matches with
  | [] => insights
  | _ :: _ =>
      insights
      ++ [("Good patterns : " ++ Py.join ", " quality_matches)%string]
  end in
let insights :=
  match issues_matches with
  | [] => insights
  | _ :: _ =>
      insights
      ++ [("Concerning patterns : " ++ Py.join ", " issues_matches)%string]
  end in
insights.

(** [_rule_based_analysis]. *)
Definition _rule_based_analysis (function : Ast.FunctionDefNode)
  : list string :=
let issues := [] in
let issues :=
  if 4 <? length (Ast.args_ (Ast.args function))
  then issues
       ++ [("Function " ++ Ast.name function ++ " : many arguments ("
            ++ Py.str_of_nat (length (Ast.args_ (Ast.args function)))
            ++ ")")%string]
  else issues in
let issues :=
  if 30 <? length (Ast.body function)
  then issues
       ++ [("Function " ++ Ast.name function ++ " : long function ("
            ++ Py.str_of_nat (length (Ast.body function))
            ++ " lines)")%string]
  else issues in
issues.

(** The float literal [0.7]: the double nearest to 7/10. *)
Definition confidence_threshold : Q :=
3152519739159347 # 4503599627370496.

(** How an f-string renders a float: [{x:.2f}] and [{x}]. *)
Variable format_2f : Q -> string.
Variable format_float : Q -> string.

(** [_similar_function_analysis], on the analyzer's embedder. *)
Definition _similar_function_analysis (function : Ast.FunctionDefNode)
  : M E (list string) :=
bind E (find_similar_functions E function 3) (fun similar_functions =>
let insights := [] in
match similar_functions with
| [] => ret E insights
| best_match :: _ =>
    if negb (Qle_bool (similarity best_match) confidence_threshold) then
      let insights :=
        insights
        ++ [("Similar to : " ++ match_name best_match ++ " (confidence : "
             ++ format_2f (similarity best_match) ++ ")")%string] in
      let insights :=
        insights
        ++ [("Pattern quality score: "
             ++ format_float (quality_score best_match))%string] in
      ret E insights
    else ret E insights
end).

End EmbeddingAnalyzer.

(* ================================================================== *)
(** ** [StructuralAnalyzer.calculate_max_nesting] *)

Definition is_block (node : Ast.AST) : bool :=
Ast.isinstance node Ast.FunctionDef || Ast.isinstance node Ast.ClassDef
|| Ast.isinstance node Ast.If || Ast.isinstance node Ast.For
|| Ast.isinstance node Ast.While.

(** One round of the loop on [(max_depth, current_depth)]. *)
Definition nesting_step (depths : nat * nat) (node : Ast.AST) : nat * nat :=
let (max_depth, current_depth) := depths in
if is_block node then
  let current_depth := current_depth + 1 in
  let max_depth := Nat.max max_depth current_depth in
  (max_depth, current_depth)
else (max_depth, current_depth).

Definition calculate_max_nesting (tree : Ast.AST) : nat :=
fst (fold_left nesting_step (Ast.walk tree) (0, 0)).

(* ================================================================== *)
(** ** [CodeValidator] of [utils/validation.py] *)

Definition dangerous_imports : list string :=
[ "os.system"; "subprocess.call"; "eval"; "exec";
  "pickle.loads"; "marshal.loads"; "yaml.load" ].

Definition validate_code_security (code : string) : list string :=
let security_issues := [] in
let security_issues :=
  fold_left
    (fun issues dangerous_import =>
       if contains dangerous_import code
       then issues
            ++ [("Dangerous import detected: " ++ dangerous_import)%string]
       else issues)
    dangerous_imports security_issues in
let security_issues :=
  if contains "input()" code
     && existsb (fun op => contains op code) ["eval"; "exec"]
  then security_issues
       ++ ["Potential code injection with input() and eval/exec"]
  else security_issues in
security_issues.

(** The text of a finding of the loop over [dangerous_imports]. *)
Definition security_finding (dangerous_import : string) : string :=
("Dangerous import detected: " ++ dangerous_import)%string.

(** What [ast.parse(code)] does, as far as the validator looks: it returns,
    raises [SyntaxError] (with the text of the exception) or raises
    something else, which the validator does not catch. *)
Inductive parse_outcome : Set :=
| Parsed
| RaisedSyntaxError (text : string)
| RaisedOther.

Section Validator.

Variable ast_parse : string -> parse_outcome.

(** [None]: the exception escapes. *)
Definition validate_python_syntax (code : string)
  : option (bool * option string) :=
match ast_parse code with
| Parsed => Some (true, None)
| RaisedSyntaxError e => Some (false, Some ("Syntax error: " ++ e)%string)
| RaisedOther => None
end.

Definition validate_analysis_input (code analysis_type : string)
  : option (bool * list string) :=
let issues := [] in
if negb (PyStr.truthy code) || negb (PyStr.truthy (PyStr.strip code)) then
  let issues := issues ++ ["Code input cannot be empty"] in
  Some (false, issues)
else
  let issues :=
    if (10000 <? Z.of_nat (String.length code))%Z
    then issues ++ ["Code exceeds maximum size limit (10KB)"]
    else issues in
  match validate_python_syntax code with
  | None => None
  | Some (is_valid_syntax, syntax_error) =>
      let issues :=
        if negb is_valid_syntax
        then issues ++ Ast.opt_list syntax_error
        else issues in
      let issues :=
        if PyStr.in_list analysis_type ["security"; "comprehensive"]
        then issues ++ validate_code_security code
        else issues in
      Some (match issues with [] => true | _ :: _ => false end, issues)
  end.

End Validator.

(* ================================================================== *)
(** ** More sample function nodes *)

Module MoreSamples.

(** def configure(host, port, user, password, timeout): pass *)
Definition configure : Ast.FunctionDefNode :=
Samples.def "configure"
  (Samples.plain ["host"; "port"; "user"; "password"; "timeout"])
  [Ast.Node Ast.Pass []].

(** The same with three parameters more. *)
Definition configure_more : Ast.FunctionDefNode :=
Samples.def "configure"
  (Samples.plain
     ["host"; "port"; "user"; "password"; "timeout"; "retries"; "proxy";
      "verbose"])
  [Ast.Node Ast.Pass []].

(** A rendering of floats for the examples (a stand-in). *)
Definition render (x : Q) : string :=
(Py.str_of_nat (Z.to_nat (Qnum x)) ++ "/"
 ++ Py.str_of_nat (Pos.to_nat (Qden x)))%string.

End MoreSamples.

(* ================================================================== *)
(** ** The values of [cosine_similarity] *)



(* ================================================================== *)
(** ** An instance of [Env] that computes in binary64

    The vector space of scikit-learn on feature strings, with the
    arithmetic of its float64 arrays: terms are the words and the pairs of
    adjacent words, a row holds the term counts divided by their Euclidean
    norm, and [cosine_similarity] normalises the rows of both matrices once
    more and multiplies them, every sum being taken in sequence. The
    inverse document frequency is taken as 1, which is its value when every
    term occurs in every document (in particular in a corpus of one
    record), and the columns stand in order of first occurrence. *)

From Stdlib Require PrimFloat FloatOps SpecFloat Uint63.

Module Binary64.

(** The rational that a finite double denotes. *)
Definition to_Q (f : PrimFloat.float) : Q :=
match FloatOps.Prim2SF f with
| SpecFloat.S754_finite s m e =>
    let z := if s then Zneg m else Zpos m in
    match e with
    | Z0 => z # 1
    | Zpos p => (z * 2 ^ Zpos p) # 1
    | Zneg p => z # (2 ^ p)
    end
| _ => 0%Q
end.

(** The double of an integer below [2^63]. *)
Definition of_Z (z : Z) : PrimFloat.float :=
match z with
| Z0 => PrimFloat.zero
| Zpos _ => PrimFloat.of_uint63 (Uint63.of_Z z)
| Zneg n => PrimFloat.opp (PrimFloat.of_uint63 (Uint63.of_Z (Zpos n)))
end.

(** The double nearest to a rational (exact on what [to_Q] gives for a
    double that is not tiny). *)
Definition of_Q (q : Q) : PrimFloat.float :=
PrimFloat.div (of_Z (Qnum q)) (of_Z (Zpos (Qden q))).

(** Row normalisation ([norm='l2']): the squares are added in sequence, a
    null row is left as it is. *)
Definition normalize_row (xs : list PrimFloat.float) : list PrimFloat.float :=
let sum_ :=
  fold_left (fun acc x => PrimFloat.add acc (PrimFloat.mul x x)) xs
    PrimFloat.zero in
if PrimFloat.eqb sum_ PrimFloat.zero then xs
else
  let norm := PrimFloat.sqrt sum_ in
  map (fun x => PrimFloat.div x norm) xs.

(** The product of two rows, the products added in sequence. *)
Definition dot (a b : list PrimFloat.float) : PrimFloat.float :=
fold_left (fun acc p => PrimFloat.add acc (PrimFloat.mul (fst p) (snd p)))
  (combine a b) PrimFloat.zero.

(** [ngram_range=(1,2)]: the words, then the pairs of adjacent words. *)
Fixpoint bigrams (words : list string) : list string :=
match words with
| w1 :: (w2 :: _) as rest => (w1 ++ " " ++ w2)%string :: bigrams rest
| _ => []
end.

Definition terms (doc : string) : list string :=
let words := Demo.tokens doc in
words ++ bigrams words.

Definition Vectorizer : Type := option (list string).

(** A row of [TfidfTransformer]: term counts (times an idf of 1),
    normalised. *)
Definition tfidf_row (vocabulary : list string) (doc : string) : list Q :=
map to_Q
  (normalize_row
     (map (fun term =>
             of_Z (Z.of_nat (count_occ string_dec (terms doc) term)))
        vocabulary)).

Definition fit_transform (_ : Vectorizer) (docs : list string)
  : Vectorizer * Matrix :=
let vocabulary := nodup string_dec (flat_map terms docs) in
(Some vocabulary, map (tfidf_row vocabulary) docs).

Definition transform (v : Vectorizer) (docs : list string) : option Matrix :=
match v with
| None => None
| Some vocabulary => Some (map (tfidf_row vocabulary) docs)
end.

Definition cosine_similarity (X Y : Matrix) : Matrix :=
map (fun x =>
       let x_normalized := normalize_row (map of_Q x) in
       map (fun y => to_Q (dot x_normalized (normalize_row (map of_Q y)))) Y)
  X.

Definition env : Env :=
mk_Env Demo.set_iter Demo.digest Demo.argsort Vectorizer None fit_transform
  transform
  (fun v => match v with Some l => length l | None => 0 end)
  cosine_similarity.


End Binary64.

(* ================================================================== *)
(** * Properties *)

(** ** The walk *)

Module WalkFacts.

Import Ast.

(** With fuel for every node still to be served, the queue loop ends and
    has yielded the nodes of the trees in the queue. *)
Lemma walk_queue_enough (fuel : nat) :
  forall todo,
    length (flat_map preorder todo) <= fuel ->
    exists l, walk_queue fuel todo = Some l
              /\ Permutation l (flat_map preorder todo).
Proof.
  induction fuel as [|fuel IH]; intros todo Hlen.
  - destruct todo as [|[c cs] rest]; simpl in *.
    + exists []. split; [reflexivity | constructor].
    + lia.
  - destruct todo as [|[c cs] rest].
    + exists []. split; [reflexivity | constructor].
    + simpl in Hlen. rewrite length_app in Hlen.
      destruct (IH (rest ++ cs)) as (l & Hl & Hp).
      { rewrite flat_map_app, length_app. lia. }
      exists (Node c cs :: l). split.
      * simpl. rewrite Hl. reflexivity.
      * simpl. constructor.
        rewrite flat_map_app in Hp.
        eapply Permutation_trans; [exact Hp | apply Permutation_app_comm].
Qed.

(** [ast.walk] terminates and yields every node of the tree once. *)
Lemma walk_preorder (n : AST) : Permutation (walk n) (preorder n).
Proof.
  unfold walk.
  destruct (walk_queue_enough (length (preorder n)) [n]) as (l & Hl & Hp).
  - simpl. rewrite app_nil_r. lia.
  - rewrite Hl. simpl in Hp. rewrite app_nil_r in Hp. exact Hp.
Qed.

Lemma walk_queue_total (n : AST) :
  walk_queue (length (preorder n)) [n] = Some (walk n).
Proof.
  unfold walk.
  destruct (walk_queue_enough (length (preorder n)) [n]) as (l & Hl & _).
  - simpl. rewrite app_nil_r. lia.
  - rewrite Hl. reflexivity.
Qed.

Lemma in_walk (n child : AST) : In child (walk n) <-> In child (preorder n).
Proof.
  split; apply Permutation_in;
    [| apply Permutation_sym]; apply walk_preorder.
Qed.

End WalkFacts.

(** ** Sets of tokens *)

Module SetFacts.

Lemma set_mem_In (x : string) (s : Py.set_) :
  Py.set_mem x s = true <-> In x s.
Proof.
  unfold Py.set_mem. rewrite existsb_exists. split.
  - intros (y & Hy & Heq). apply String.eqb_eq in Heq. now subst.
  - intros H. exists x. split; [exact H | apply String.eqb_refl].
Qed.

Lemma set_add_In (x y : string) (s : Py.set_) :
  In y (Py.set_add x s) <-> y = x \/ In y s.
Proof.
  unfold Py.set_add. destruct (Py.set_mem x s) eqn:Hm.
  - apply set_mem_In in Hm. split; [auto | intros [-> | H]; auto].
  - rewrite in_app_iff. simpl. intuition.
Qed.

Lemma set_add_NoDup (x : string) (s : Py.set_) :
  NoDup s -> NoDup (Py.set_add x s).
Proof.
  intros Hs. unfold Py.set_add. destruct (Py.set_mem x s) eqn:Hm; [exact Hs|].
  apply NoDup_app; [exact Hs | repeat constructor; simpl; tauto |].
  intros y Hy [<- | []].
  apply set_mem_In in Hy. congruence.
Qed.

End SetFacts.

(** ** The instance meets the contracts *)

Section InsertionFacts.

Context {A : Type} (leb : A -> A -> bool).

Lemma insert_perm (x : A) (l : list A) : Permutation (insert leb x l) (x :: l).
Proof.
  induction l as [|y l IH]; simpl.
  - apply Permutation_refl.
  - destruct (leb x y).
    + apply Permutation_refl.
    + eapply Permutation_trans; [apply perm_skip, IH | apply perm_swap].
Qed.

Lemma isort_perm (l : list A) : Permutation (isort leb l) l.
Proof.
  induction l as [|x l IH]; simpl.
  - constructor.
  - eapply Permutation_trans; [apply insert_perm | apply perm_skip, IH].
Qed.

Hypothesis leb_total : forall a b, leb a b = false -> leb b a = true.
Hypothesis leb_trans :
  forall a b c, leb a b = true -> leb b c = true -> leb a c = true.

Let le_ (a b : A) : Prop := leb a b = true.

Lemma insert_sorted (x : A) (l : list A) :
  StronglySorted le_ l -> StronglySorted le_ (insert leb x l).
Proof.
  induction 1 as [|y l Hs IH Hy]; simpl.
  - repeat constructor.
  - destruct (leb x y) eqn:Hxy.
    + constructor; [constructor; assumption|].
      constructor; [exact Hxy|].
      eapply Forall_impl; [| exact Hy].
      intros z Hz. eapply leb_trans; eassumption.
    + constructor; [exact IH|].
      eapply Permutation_Forall; [apply Permutation_sym, insert_perm|].
      constructor; [apply leb_total, Hxy | exact Hy].
Qed.

Lemma isort_sorted (l : list A) : StronglySorted le_ (isort leb l).
Proof.
  induction l as [|x l IH]; simpl; [constructor | apply insert_sorted, IH].
Qed.

End InsertionFacts.

Lemma StronglySorted_weaken {A} (R R' : A -> A -> Prop) (l : list A) :
  (forall a b, R a b -> R' a b) -> StronglySorted R l -> StronglySorted R' l.
Proof.
  intros HR. induction 1 as [|x l Hs IH Hx]; constructor; [exact IH|].
  eapply Forall_impl; [| exact Hx]. intros b. apply HR.
Qed.

Lemma Demo_set_iter_ok : SetIterOk Demo.env.
Proof. intros s _. apply isort_perm. Qed.

Lemma Demo_argsort_ok : ArgsortOk Demo.env.
Proof.
  intros row. split; [apply isort_perm|].
  apply StronglySorted_weaken
    with (R := fun i j => Qle_bool (at_ row i) (at_ row j) = true).
  { intros a b. apply Qle_bool_iff. }
  apply (isort_sorted (fun i j => Qle_bool (at_ row i) (at_ row j))).
  - intros a b H. apply Qle_bool_iff.
    destruct (Qlt_le_dec (at_ row a) (at_ row b)) as [Hlt | Hle].
    + pose proof (proj2 (Qle_bool_iff (at_ row a) (at_ row b))) as Hc.
      rewrite Hc in H by (apply Qlt_le_weak; exact Hlt). discriminate.
    + exact Hle.
  - intros a b c Hab Hbc. apply Qle_bool_iff.
    apply Qle_bool_iff in Hab. apply Qle_bool_iff in Hbc.
    eapply Qle_trans; eassumption.
Qed.

Lemma Demo_sklearn_ok : SklearnOk Demo.env.
Proof.
  split; [| split].
  - intros v docs docs'. simpl. eexists. split; [reflexivity | apply length_map].
  - intros v docs. simpl. apply length_map.
  - intros X Y. simpl. unfold Demo.cosine_similarity. split.
    + apply length_map.
    + apply Forall_forall. intros r Hr. apply in_map_iff in Hr.
      destruct Hr as (x & <- & _). apply length_map.
Qed.

(** ** The operations channel *)

Module OperationFacts.

Import Ast SetFacts.

Lemma operations_step_token (s : Py.set_) (child : AST) :
  operations_step s child =
  match operation_token (class_of child) with
  | Some t => Py.set_add t s
  | None => s
  end.
Proof. destruct child as [c cs]. destruct c; reflexivity. Qed.

Lemma operation_token_listed (c : node_class) (t : string) :
  operation_token c = Some t -> In t operation_tokens.
Proof.
  destruct c; simpl; intros H; try discriminate;
    injection H as <-; simpl; tauto.
Qed.

Lemma fold_operations_NoDup (l : list AST) :
  forall s, NoDup s -> NoDup (fold_left operations_step l s).
Proof.
  induction l as [|child l IH]; intros s Hs; simpl; [exact Hs|].
  apply IH. rewrite operations_step_token.
  destruct (operation_token (class_of child));
    [apply set_add_NoDup|]; exact Hs.
Qed.

Lemma fold_operations_In (tok : string) (l : list AST) :
  forall s,
    In tok (fold_left operations_step l s) <->
    In tok s
    \/ exists child, In child l /\ operation_token (class_of child) = Some tok.
Proof.
  induction l as [|child l IH]; intros s; simpl.
  - split; [auto | intros [H | (c & [] & _)]; exact H].
  - rewrite IH, operations_step_token. split.
    + intros [H | (c & Hc & Ht)].
      * destruct (operation_token (class_of child)) as [t|] eqn:Ht.
        -- apply set_add_In in H. destruct H as [-> | H]; [|auto].
           right. exists child. auto.
        -- auto.
      * right. exists c. auto.
    + intros [H | (c & [<- | Hc] & Ht)].
      * left. destruct (operation_token (class_of child));
          [apply set_add_In; auto | exact H].
      * left. rewrite Ht. apply set_add_In. auto.
      * right. exists c. auto.
Qed.

Lemma operations_set_NoDup (node : AST) : NoDup (operations_set node).
Proof. apply fold_operations_NoDup. constructor. Qed.

(** A token is in the set exactly when a node of its kind occurs in the
    tree, however often. *)
Lemma operations_set_In (node : AST) (tok : string) :
  In tok (operations_set node) <->
  exists child,
    In child (preorder node) /\ operation_token (class_of child) = Some tok.
Proof.
  unfold operations_set. rewrite fold_operations_In. split.
  - intros [[] | (c & Hc & Ht)]. exists c. split; [|exact Ht].
    apply WalkFacts.in_walk, Hc.
  - intros (c & Hc & Ht). right. exists c. split; [|exact Ht].
    apply WalkFacts.in_walk, Hc.
Qed.

Lemma first_seen_In (tok : string) (tokens : list string) :
  forall seen,
    In tok (first_seen tokens seen) <-> In tok tokens /\ ~ In tok seen.
Proof.
  induction tokens as [|t tokens IH]; intros seen; simpl.
  - tauto.
  - destruct (Py.set_mem t seen) eqn:Hm.
    + apply set_mem_In in Hm. rewrite IH. split.
      * intros [H1 H2]. auto.
      * intros [[<- | H1] H2]; [contradiction | auto].
    + assert (Hn : ~ In t seen).
      { intros H. apply set_mem_In in H. congruence. }
      simpl. rewrite IH. simpl. split.
      * intros [<- | [H1 H2]]; [auto|]. split; [auto | tauto].
      * intros [[<- | H1] H2]; [auto|].
        destruct (string_dec t tok) as [-> | Hne]; [auto|].
        right. split; [exact H1 | tauto].
Qed.

Lemma first_seen_NoDup (tokens : list string) :
  forall seen, NoDup (first_seen tokens seen).
Proof.
  induction tokens as [|t tokens IH]; intros seen; simpl; [constructor|].
  destruct (Py.set_mem t seen); [apply IH|].
  constructor; [| apply IH].
  rewrite first_seen_In. simpl. tauto.
Qed.

Lemma spec_operations_In (node : AST) (tok : string) :
  In tok (spec_operations node) <->
  exists child,
    In child (preorder node) /\ operation_token (class_of child) = Some tok.
Proof.
  unfold spec_operations. rewrite first_seen_In, in_flat_map. split.
  - intros [(c & Hc & Ht) _]. exists c. split; [exact Hc|].
    destruct (operation_token (class_of c)); simpl in Ht; [|tauto].
    destruct Ht as [-> | []]. reflexivity.
  - intros (c & Hc & Ht). split; [| simpl; tauto].
    exists c. split; [exact Hc|]. rewrite Ht. simpl. auto.
Qed.

End OperationFacts.

Lemma emitted_operations (E : Env) (node : Ast.AST) :
  SetIterOk E ->
  let emitted := _extract_operations E node in
  NoDup emitted
  /\ incl emitted operation_tokens
  /\ (forall tok,
        In tok emitted <->
        exists child,
          In child (Ast.preorder node)
          /\ operation_token (Ast.class_of child) = Some tok)
  /\ Permutation emitted (spec_operations node).
Proof.
  intros HE emitted.
  pose proof (HE _ (OperationFacts.operations_set_NoDup node)) as Hp.
  fold emitted in Hp. unfold _extract_operations in emitted.
  assert (Hin : forall tok,
             In tok emitted <->
             exists child,
               In child (Ast.preorder node)
               /\ operation_token (Ast.class_of child) = Some tok).
  { intros tok. rewrite <- OperationFacts.operations_set_In. split.
    - apply Permutation_in, Hp.
    - apply Permutation_in, Permutation_sym, Hp. }
  assert (Hnd : NoDup emitted).
  { eapply Permutation_NoDup; [apply Permutation_sym, Hp|].
    apply OperationFacts.operations_set_NoDup. }
  repeat split.
  - exact Hnd.
  - intros tok Ht. apply Hin in Ht. destruct Ht as (c & _ & Hc).
    eapply OperationFacts.operation_token_listed, Hc.
  - apply Hin.
  - apply Hin.
  - apply NoDup_Permutation;
      [exact Hnd | apply OperationFacts.first_seen_NoDup |].
    intros tok. rewrite Hin, OperationFacts.spec_operations_In. tauto.
Qed.

(** C4 (as amended). The operations channel lists each of the six operation
    kinds at most once, and lists a kind exactly when a node of that kind
    occurs somewhere in the function (presence, not count); its tokens are
    those of the first-seen listing of a depth-first traversal, in the order
    in which Python lists the set, which need not be that one. *)
Theorem operations_presence_once (E : Env) (f : Ast.FunctionDefNode) :
  SetIterOk E ->
  let emitted := _extract_operations E (Ast.as_node f) in
  NoDup emitted
  /\ incl emitted operation_tokens
  /\ (forall tok,
        In tok emitted <->
        exists child,
          In child (Ast.preorder (Ast.as_node f))
          /\ operation_token (Ast.class_of child) = Some tok)
  /\ Permutation emitted (spec_operations (Ast.as_node f)).
Proof. apply emitted_operations. Qed.

Lemma operations_presence_once_witness :
  let emitted :=
    _extract_operations Demo.env (Ast.as_node Samples.calculate_total) in
  NoDup emitted
  /\ incl emitted operation_tokens
  /\ (forall tok,
        In tok emitted <->
        exists child,
          In child (Ast.preorder (Ast.as_node Samples.calculate_total))
          /\ operation_token (Ast.class_of child) = Some tok)
  /\ Permutation emitted (spec_operations (Ast.as_node Samples.calculate_total)).
Proof.
  exact (operations_presence_once Demo.env Samples.calculate_total
           Demo_set_iter_ok).
Defined.

(** C4 (as stated) fails. The two functions [if c: x += 1; y = 2] and
    [y = 2; x += 1] put the same tokens in the set in the same order (the
    walk is breadth first, so the assignment is met first in both), hence
    get the same list, whatever order Python gives the set; a depth-first
    traversal meets the augmented assignment first in the former only. *)
Lemma operations_order_counterexample :
  ~ (exists E : Env,
       forall f : Ast.FunctionDefNode,
         _extract_operations E (Ast.as_node f) = spec_operations (Ast.as_node f)).
Proof.
  intros (E & H).
  pose proof (H Samples.nested_first) as H1.
  pose proof (H Samples.flat_first) as H2.
  unfold _extract_operations in H1, H2.
  change (operations_set (Ast.as_node Samples.nested_first))
    with ["operation_assign"; "operation_aug_assign"] in H1.
  change (operations_set (Ast.as_node Samples.flat_first))
    with ["operation_assign"; "operation_aug_assign"] in H2.
  rewrite H1 in H2. vm_compute in H2. discriminate H2.
Qed.

(** ** The signature channel *)

Lemma complexity_tokens_listed (node : Ast.AST) :
  incl (_extract_complexity_features node) structural_tokens.
Proof.
  unfold _extract_complexity_features.
  destruct (3 <? count_class Ast.If (Ast.walk node));
    destruct (2 <? count_class Ast.For (Ast.walk node)
                   + count_class Ast.While (Ast.walk node));
    intros t Ht; simpl in Ht; unfold structural_tokens; simpl; intuition.
Qed.

Lemma return_pattern_listed (node : Ast.AST) :
  In (_extract_return_pattern node) structural_tokens.
Proof.
  unfold _extract_return_pattern.
  destruct (filter _ _) as [|r [|r' rs]]; unfold structural_tokens; simpl;
    intuition.
Qed.

(** C5 (as amended). The feature list starts with [func_<name>] and
    [args_<n>], where [<n>] is the length of [args.args] (the
    positional-or-keyword parameters); every token after these two is one of
    the fixed tokens of the other channels, so no parameter, variadic or
    not, gets a token of its own. *)
Theorem signature_tokens (E : Env) (f : Ast.FunctionDefNode) :
  SetIterOk E ->
  exists rest,
    feature_list E f =
      ("func_" ++ Ast.name f)%string
      :: ("args_" ++ Py.str_of_nat (length (Ast.args_ (Ast.args f))))%string
      :: rest
    /\ Forall (fun tok => In tok structural_tokens) rest.
Proof.
  intros HE. unfold feature_list. simpl.
  eexists. split; [reflexivity|].
  apply Forall_forall. intros tok Ht.
  apply in_app_iff in Ht. destruct Ht as [Ht | Ht].
  - apply in_app_iff in Ht. destruct Ht as [Ht | Ht].
    + destruct (emitted_operations E (Ast.as_node f) HE) as (_ & Hincl & _).
      apply (in_or_app operation_tokens (skipn 6 structural_tokens)).
      left. apply Hincl, Ht.
    + apply complexity_tokens_listed in Ht. exact Ht.
  - destruct Ht as [<- | []]. apply return_pattern_listed.
Qed.

Lemma signature_tokens_witness :
  exists rest,
    feature_list Demo.env Samples.with_vararg =
      ("func_" ++ Ast.name Samples.with_vararg)%string
      :: ("args_"
          ++ Py.str_of_nat
               (length (Ast.args_ (Ast.args Samples.with_vararg))))%string
      :: rest
    /\ Forall (fun tok => In tok structural_tokens) rest.
Proof.
  exact (signature_tokens Demo.env Samples.with_vararg Demo_set_iter_ok).
Defined.

(** C5 (as stated) fails: for [def f(a, *rest): pass] the feature list is
    [func_f], [args_1], [return_none], and no token names [rest]. *)
Lemma variadic_token_counterexample :
  ~ (forall E : Env,
       SetIterOk E ->
       forall (f : Ast.FunctionDefNode) (v : Ast.arg),
         Ast.vararg (Ast.args f) = Some v ->
         exists tok,
           In tok (feature_list E f) /\ contains (Ast.arg_name v) tok = true).
Proof.
  intros H.
  destruct (H Demo.env Demo_set_iter_ok Samples.with_vararg _ eq_refl)
    as (tok & Hin & Hc).
  vm_compute in Hin.
  destruct Hin as [<- | [<- | [<- | []]]]; vm_compute in Hc; discriminate Hc.
Qed.

(* ================================================================== *)
(** ** The corpus and the fit *)

Module DictFacts.

Lemma dict_get_set {V} (d : Py.dict V) (k : string) (v : V) :
  Py.dict_get (Py.dict_set d k v) k = Some v.
Proof.
  induction d as [|[k' v'] d IH]; simpl.
  - now rewrite String.eqb_refl.
  - destruct (String.eqb k' k) eqn:Hk; simpl; rewrite Hk; [reflexivity | exact IH].
Qed.

Lemma dict_set_twice {V} (d : Py.dict V) (k : string) (v : V) :
  Py.dict_set (Py.dict_set d k v) k v = Py.dict_set d k v.
Proof.
  induction d as [|[k' v'] d IH]; simpl.
  - now rewrite String.eqb_refl.
  - destruct (String.eqb k' k) eqn:Hk; simpl; rewrite Hk;
      [reflexivity | now rewrite IH].
Qed.

(** Assigning to a key appends at most one key and moves none. *)
Lemma keys_set {V} (d : Py.dict V) (k : string) (v : V) :
  exists tail, Py.keys (Py.dict_set d k v) = Py.keys d ++ tail.
Proof.
  unfold Py.keys.
  induction d as [|[k' v'] d (tail & IH)]; simpl.
  - exists [k]. reflexivity.
  - destruct (String.eqb k' k); simpl.
    + exists []. now rewrite app_nil_r.
    + exists tail. now rewrite IH.
Qed.

Lemma set_new_key {V} (d : Py.dict V) (k : string) (v : V) :
  ~ In k (Py.keys d) -> Py.keys (Py.dict_set d k v) = Py.keys d ++ [k].
Proof.
  unfold Py.keys.
  induction d as [|[k' v'] d IH]; simpl; intros Hn; [reflexivity|].
  destruct (String.eqb k' k) eqn:Hk.
  - apply String.eqb_eq in Hk. tauto.
  - simpl. rewrite IH by tauto. reflexivity.
Qed.

Lemma dict_get_key {V} (d : Py.dict V) (k : string) :
  In k (Py.keys d) -> exists v, Py.dict_get d k = Some v.
Proof.
  induction d as [|[k' v'] d IH]; simpl; [tauto|].
  intros [<- | H].
  - rewrite String.eqb_refl. eauto.
  - destruct (String.eqb k' k); eauto.
Qed.

End DictFacts.

(** C7. Adding the same function twice returns the same id both times and
    the second call leaves the corpus as the first left it; the id is the
    name joined to the first eight digits of the digest of the feature
    string, whatever the state of the embedder and the quality score, and
    the record stored holds the feature string of [extract_code_features],
    which reads nothing but the node. *)
Theorem add_twice_same_id
    (E : Env) (f : Ast.FunctionDefNode) (q : Q) (self : CodeEmbedder E) :
  let id :=
    (Ast.name f ++ "_"
     ++ substring 0 8 (md5_hexdigest E (extract_code_features E f)))%string in
  let first := add_function_to_database E f q self in
  let second := add_function_to_database E f q (self_after first) in
  value first = inr id
  /\ value second = inr id
  /\ self_after second = self_after first
  /\ option_map data_features
       (Py.dict_get (function_database (self_after first)) id)
     = Some (extract_code_features E f)
  /\ (forall (q' : Q) (self' : CodeEmbedder E),
        value (add_function_to_database E f q' self') = inr id)
  /\ printed first = [] /\ printed second = [].
Proof.
  intros id first second. unfold first, second.
  unfold add_function_to_database, bind, get, put, ret, value, self_after,
    printed. simpl.
  repeat split.
  - fold id. rewrite DictFacts.dict_set_twice. reflexivity.
  - fold id. rewrite DictFacts.dict_get_set. reflexivity.
Qed.

(** The feature string, hence the id, is fixed within one process only: the
    order of the operation tokens is the set order of that process. *)
Lemma features_follow_set_order :
  extract_code_features Demo.env Samples.calculate_total
  <> extract_code_features Demo.env_insertion_order Samples.calculate_total
  /\ value (add_function_to_database Demo.env Samples.calculate_total 1
              (__init__ Demo.env))
     <> value (add_function_to_database Demo.env_insertion_order
                 Samples.calculate_total 1
                 (__init__ Demo.env_insertion_order)).
Proof. split; vm_compute; intros H; discriminate H. Qed.

(** C8. On an empty corpus [fit_embeddings] prints its diagnostic, raises
    nothing and leaves the embedder exactly as it was: a fitted state stays,
    and an embedder that was never fitted still has no [is_fitted]. *)
Theorem fit_empty_noop (E : Env) (self : CodeEmbedder E) :
  function_database self = [] ->
  fit_embeddings E self
  = (inr tt, self, ["No function database to learn from"])
  /\ is_fitted (self_after (fit_embeddings E self)) = is_fitted self
  /\ embedding_vectors (self_after (fit_embeddings E self))
     = embedding_vectors self.
Proof.
  intros Hdb.
  assert (H : fit_embeddings E self
              = (inr tt, self, ["No function database to learn from"])).
  { unfold fit_embeddings, bind, get, print. simpl. rewrite Hdb. reflexivity. }
  rewrite H. auto.
Qed.

Lemma fit_empty_noop_witness :
  fit_embeddings Demo.env (__init__ Demo.env)
  = (inr tt, __init__ Demo.env, ["No function database to learn from"])
  /\ is_fitted (self_after (fit_embeddings Demo.env (__init__ Demo.env)))
     = None
  /\ embedding_vectors
       (self_after (fit_embeddings Demo.env (__init__ Demo.env)))
     = None.
Proof. exact (fit_empty_noop Demo.env (__init__ Demo.env) eq_refl). Defined.

(** The guard of line 141 does what it is there for once [is_fitted] exists
    and is false. *)
Lemma find_similar_guard
    (E : Env) (self : CodeEmbedder E) (f : Ast.FunctionDefNode) (top_k : Z) :
  is_fitted self = Some false ->
  find_similar_functions E f top_k self
  = (inr [], self,
     ["Embeddings not fitted yet - call fit_embeddings() first"]).
Proof.
  intros H. unfold find_similar_functions, bind, getattr.
  rewrite H. reflexivity.
Qed.

(** C2 (what the code does). On a fresh embedder [find_similar_functions]
    raises [AttributeError]: [__init__] never assigns [is_fitted], so the
    guard that would print the diagnostic and return the empty list cannot
    be evaluated. *)
Theorem find_similar_fresh_raises
    (E : Env) (f : Ast.FunctionDefNode) (top_k : Z) :
  find_similar_functions E f top_k (__init__ E)
  = (inl (AttributeError "is_fitted"), __init__ E, []).
Proof. reflexivity. Qed.

(* ================================================================== *)
(** ** Ranking *)

Module SortedFacts.

Section Rel.

Context {A : Type} (R : A -> A -> Prop).

Lemma StronglySorted_app_inv (l1 l2 : list A) :
  StronglySorted R (l1 ++ l2) ->
  StronglySorted R l1 /\ StronglySorted R l2
  /\ (forall a b, In a l1 -> In b l2 -> R a b).
Proof.
  induction l1 as [|x l1 IH]; simpl; intros H.
  - repeat split; [constructor | exact H | intros a b []].
  - inversion H as [|? ? Hs Hx]; subst.
    destruct (IH Hs) as (H1 & H2 & H12).
    rewrite Forall_app in Hx. destruct Hx as [Hx1 Hx2].
    repeat split.
    + constructor; assumption.
    + exact H2.
    + intros a b [<- | Ha] Hb.
      * rewrite Forall_forall in Hx2. apply Hx2, Hb.
      * apply H12; assumption.
Qed.

Lemma StronglySorted_app (l1 l2 : list A) :
  StronglySorted R l1 -> StronglySorted R l2 ->
  (forall a b, In a l1 -> In b l2 -> R a b) ->
  StronglySorted R (l1 ++ l2).
Proof.
  induction 1 as [|x l1 Hs IH Hx]; simpl; intros H2 H12; [exact H2|].
  constructor.
  - apply IH; [exact H2|]. intros a b Ha Hb. apply H12; simpl; auto.
  - apply Forall_app. split; [exact Hx|].
    apply Forall_forall. intros b Hb. apply H12; simpl; auto.
Qed.

End Rel.

Lemma StronglySorted_rev {A} (R : A -> A -> Prop) (l : list A) :
  StronglySorted R l -> StronglySorted (fun a b => R b a) (rev l).
Proof.
  induction 1 as [|x l Hs IH Hx]; simpl; [constructor|].
  apply StronglySorted_app; [exact IH | repeat constructor |].
  intros a b Ha [<- | []]. apply in_rev in Ha.
  rewrite Forall_forall in Hx. apply Hx, Ha.
Qed.

End SortedFacts.

Module RankFacts.

(** For [top_k >= 1] the slice [[-top_k:]] keeps the last
    [min(top_k, len)] items. *)
Lemma slice_last {A} (l : list A) (top_k : Z) :
  (1 <= top_k)%Z ->
  Py.slice_from (- top_k) l
  = skipn (length l - Nat.min (Z.to_nat top_k) (length l)) l.
Proof.
  intros Hk. unfold Py.slice_from.
  destruct (- top_k <? 0)%Z eqn:Hlt; [| apply Z.ltb_ge in Hlt; lia].
  f_equal. lia.
Qed.

Section Order.

Variables (E : Env) (row : list Q).
Hypothesis HE : ArgsortOk E.

Lemma argsort_length : length (argsort E row) = length row.
Proof.
  destruct (HE row) as [Hp _].
  rewrite (Permutation_length Hp). apply length_seq.
Qed.

Lemma argsort_In (i : nat) : In i (argsort E row) <-> i < length row.
Proof.
  destruct (HE row) as [Hp _]. split; intros H.
  - apply (Permutation_in _ Hp) in H. apply in_seq in H. lia.
  - apply (Permutation_in _ (Permutation_sym Hp)). apply in_seq. lia.
Qed.

Lemma argsort_NoDup : NoDup (argsort E row).
Proof.
  destruct (HE row) as [Hp _].
  eapply Permutation_NoDup; [apply Permutation_sym, Hp | apply seq_NoDup].
Qed.

End Order.

Section Row.

Variables (E : Env) (row : list Q) (top_k : Z).
Hypothesis HE : ArgsortOk E.
Hypothesis Hk : (1 <= top_k)%Z.

Let order := argsort E row.
Let kept := Nat.min (Z.to_nat top_k) (length row).
Let dropped := length row - kept.

Lemma similar_indices_eq :
  similar_indices E row top_k = rev (skipn dropped order).
Proof.
  unfold similar_indices, Py.reversed. rewrite slice_last by exact Hk.
  rewrite argsort_length by exact HE. reflexivity.
Qed.

Lemma order_split : order = firstn dropped order ++ skipn dropped order.
Proof. symmetry. apply firstn_skipn. Qed.

Lemma similar_indices_length : length (similar_indices E row top_k) = kept.
Proof.
  rewrite similar_indices_eq, length_rev, length_skipn.
  unfold order. rewrite argsort_length by exact HE.
  unfold dropped, kept. lia.
Qed.

Lemma similar_indices_NoDup : NoDup (similar_indices E row top_k).
Proof.
  rewrite similar_indices_eq. apply NoDup_rev.
  pose proof (argsort_NoDup E row HE) as Hn. fold order in Hn.
  rewrite order_split in Hn. apply NoDup_app_remove_l in Hn. exact Hn.
Qed.

Lemma similar_indices_bound (i : nat) :
  In i (similar_indices E row top_k) -> i < length row.
Proof.
  rewrite similar_indices_eq, <- in_rev. intros H.
  apply (argsort_In E row HE). fold order. rewrite order_split.
  apply in_or_app. auto.
Qed.

Lemma similar_indices_descending :
  StronglySorted (fun i j => (at_ row j <= at_ row i)%Q)
    (similar_indices E row top_k).
Proof.
  rewrite similar_indices_eq.
  apply (SortedFacts.StronglySorted_rev
           (fun i j => (at_ row i <= at_ row j)%Q)).
  destruct (HE row) as [_ Hs]. fold order in Hs.
  rewrite order_split in Hs.
  apply SortedFacts.StronglySorted_app_inv in Hs. tauto.
Qed.

Lemma similar_indices_highest (i j : nat) :
  In i (similar_indices E row top_k) ->
  j < length row -> ~ In j (similar_indices E row top_k) ->
  (at_ row j <= at_ row i)%Q.
Proof.
  rewrite similar_indices_eq, <- !in_rev. intros Hi Hj Hnj.
  destruct (HE row) as [_ Hs]. fold order in Hs.
  rewrite order_split in Hs.
  apply SortedFacts.StronglySorted_app_inv in Hs.
  destruct Hs as (_ & _ & Hcross). apply Hcross; [|exact Hi].
  apply (argsort_In E row HE) in Hj. fold order in Hj.
  rewrite order_split in Hj.
  apply in_app_or in Hj. tauto.
Qed.

End Row.

End RankFacts.

(** C3 (as amended). For [top_k >= 1] the ranking line yields
    [min(top_k, rows)] distinct row indices, in descending order of
    similarity, and no row left out has a higher similarity than a row kept.
    Rows of equal similarity come in the order the reversed [argsort] leaves
    them. *)
Theorem rank_top_k (E : Env) (row : list Q) (top_k : Z) :
  ArgsortOk E ->
  (1 <= top_k)%Z ->
  let ranked := similar_indices E row top_k in
  length ranked = Nat.min (Z.to_nat top_k) (length row)
  /\ NoDup ranked
  /\ (forall i, In i ranked -> i < length row)
  /\ StronglySorted (fun i j => (at_ row j <= at_ row i)%Q) ranked
  /\ (forall i j,
        In i ranked -> j < length row -> ~ In j ranked ->
        (at_ row j <= at_ row i)%Q).
Proof.
  intros HE Hk ranked. unfold ranked. repeat split.
  - apply RankFacts.similar_indices_length; assumption.
  - apply RankFacts.similar_indices_NoDup; assumption.
  - apply RankFacts.similar_indices_bound; assumption.
  - apply RankFacts.similar_indices_descending; assumption.
  - apply RankFacts.similar_indices_highest; assumption.
Qed.

Lemma rank_top_k_witness :
  let row := [1 # 7; 2 # 3; 1 # 7; 1 # 2] in
  let ranked := similar_indices Demo.env row 3 in
  length ranked = Nat.min (Z.to_nat 3) (length row)
  /\ NoDup ranked
  /\ (forall i, In i ranked -> i < length row)
  /\ StronglySorted (fun i j => (at_ row j <= at_ row i)%Q) ranked
  /\ (forall i j,
        In i ranked -> j < length row -> ~ In j ranked ->
        (at_ row j <= at_ row i)%Q).
Proof.
  exact (rank_top_k Demo.env [1 # 7; 2 # 3; 1 # 7; 1 # 2] 3
           Demo_argsort_ok ltac:(lia)).
Defined.

(** C3 (as stated) fails on ties: with a sort that keeps equal values in
    index order, as numpy's does on a short array, two rows of similarity
    1/2 are ranked [1; 0], the later row first. *)
Lemma rank_ties_counterexample :
  ~ (forall E : Env,
       ArgsortOk E ->
       forall (row : list Q) (top_k : Z),
         StronglySorted (spec_rank_order row) (similar_indices E row top_k)).
Proof.
  intros H.
  pose proof (H Demo.env Demo_argsort_ok [1 # 2; 1 # 2] 2%Z) as Hs.
  change (similar_indices Demo.env [1 # 2; 1 # 2] 2) with [1; 0] in Hs.
  inversion Hs as [|? ? _ Hf]; subst.
  inversion Hf as [|? ? [Hlt | [_ Hlt]] _]; subst.
  - vm_compute in Hlt. discriminate Hlt.
  - lia.
Qed.

(* ================================================================== *)
(** ** Queries on a fitted embedder *)

Module QueryFacts.

Section WithEnv.

Variable E : Env.

Lemma fit_nonempty (self : CodeEmbedder E) :
  function_database self <> [] ->
  let docs := map data_features (Py.values (function_database self)) in
  let fitted := fit_transform E (vectorizer self) docs in
  fit_embeddings E self
  = (inr tt,
     {| vectorizer := fst fitted;
        function_database := function_database self;
        embedding_vectors := Some (snd fitted);
        is_fitted := Some true |},
     [ ("Learned embeddings for "
        ++ Py.str_of_nat (length docs) ++ " functions")%string;
       ("Vocabulary size : "
        ++ Py.str_of_nat (vocabulary_len E (fst fitted)))%string ]).
Proof.
  intros Hdb. unfold fit_embeddings, bind, get, put, print. simpl.
  destruct (function_database self) as [|kv db] eqn:Hd; [congruence|].
  reflexivity.
Qed.

Lemma fit_FittedOn (self : CodeEmbedder E) :
  SklearnOk E ->
  function_database self <> [] ->
  exists X,
    FittedOn (self_after (fit_embeddings E self)) X
      (Py.keys (function_database self))
    /\ function_database (self_after (fit_embeddings E self))
       = function_database self.
Proof.
  intros (Hv & Hrows & _) Hdb. rewrite (fit_nonempty self Hdb).
  eexists. split; [| reflexivity].
  unfold FittedOn, self_after. simpl.
  repeat split.
  - apply Hv.
  - rewrite Hrows. unfold Py.keys, Py.values. now rewrite !length_map.
  - exists []. now rewrite app_nil_r.
Qed.

(** What one [add_function_to_database] call does. *)
Lemma add_run (f : Ast.FunctionDefNode) (q : Q) (self : CodeEmbedder E) :
  let features := extract_code_features E f in
  let id :=
    (Ast.name f ++ "_" ++ substring 0 8 (md5_hexdigest E features))%string in
  add_function_to_database E f q self
  = (inr id,
     {| vectorizer := vectorizer self;
        function_database :=
          Py.dict_set (function_database self) id
            {| data_features := features;
               data_quality_score := q;
               data_name := Ast.name f;
               data_node := f |};
        embedding_vectors := embedding_vectors self;
        is_fitted := is_fitted self |},
     []).
Proof. reflexivity. Qed.

Lemma add_state (f : Ast.FunctionDefNode) (q : Q) (self : CodeEmbedder E) :
  let s := self_after (add_function_to_database E f q self) in
  vectorizer s = vectorizer self
  /\ embedding_vectors s = embedding_vectors self
  /\ is_fitted s = is_fitted self
  /\ exists id data,
       function_database s = Py.dict_set (function_database self) id data.
Proof.
  unfold add_function_to_database, bind, get, put, ret, self_after. simpl.
  repeat split. eauto.
Qed.

Lemma add_FittedOn (f : Ast.FunctionDefNode) (q : Q)
    (self : CodeEmbedder E) (X : Matrix) (snapshot : list string) :
  FittedOn self X snapshot ->
  FittedOn (self_after (add_function_to_database E f q self)) X snapshot.
Proof.
  intros (H1 & H2 & H3 & H4 & later & H5).
  destruct (add_state f q self) as (Hv & He & Hf & id & data & Hd).
  unfold FittedOn. rewrite Hv, He, Hf, Hd.
  repeat split; try assumption.
  destruct (DictFacts.keys_set (function_database self) id data)
    as (tail & Ht).
  exists (later ++ tail). rewrite Ht, H5. now rewrite app_assoc.
Qed.

Lemma add_all_FittedOn (adds : list (Ast.FunctionDefNode * Q)) :
  forall (self : CodeEmbedder E) (X : Matrix) (snapshot : list string),
    FittedOn self X snapshot -> FittedOn (add_all E adds self) X snapshot.
Proof.
  induction adds as [|[f q] adds IH]; intros self X snapshot H; simpl.
  - exact H.
  - apply IH, add_FittedOn, H.
Qed.

Lemma for_idx_app (ids : list string) (db : Py.dict FunctionData)
    (a b : list nat) :
  forall locals,
    for_idx ids db (a ++ b) locals
    = match for_idx ids db a locals with
      | inl e => inl e
      | inr locals' => for_idx ids db b locals'
      end.
Proof.
  induction a as [|i a IH]; intros locals; simpl; [reflexivity|].
  destruct (nth_error ids i) as [fid|]; [|reflexivity].
  destruct (Py.dict_get db fid); [apply IH | reflexivity].
Qed.

(** Over indices of keys of the dictionary the loop raises nothing. *)
Lemma for_idx_valid (db : Py.dict FunctionData) (idxs : list nat) :
  (forall i, In i idxs -> i < length (Py.keys db)) ->
  forall locals,
    exists locals', for_idx (Py.keys db) db idxs locals = inr locals'.
Proof.
  induction idxs as [|i idxs IH]; intros Hv locals; simpl; [eauto|].
  destruct (nth_error (Py.keys db) i) as [fid|] eqn:Hn.
  - destruct (DictFacts.dict_get_key db fid) as (data & Hg).
    { eapply nth_error_In, Hn. }
    rewrite Hg. apply IH. intros j Hj. apply Hv. simpl. auto.
  - apply nth_error_None in Hn. specialize (Hv i (or_introl eq_refl)). lia.
Qed.

(** After a loop over valid indices the locals are those of its last
    round. *)
Lemma for_idx_last (db : Py.dict FunctionData) (idxs : list nat)
    (i : nat) (locals : loop_locals) :
  (forall j, In j (idxs ++ [i]) -> j < length (Py.keys db)) ->
  exists fid data,
    nth_error (Py.keys db) i = Some fid
    /\ Py.dict_get db fid = Some data
    /\ for_idx (Py.keys db) db (idxs ++ [i]) locals
       = inr (Some (i, fid, data)).
Proof.
  intros Hv. rewrite for_idx_app.
  destruct (for_idx_valid db idxs) with (locals := locals) as (l' & Hl).
  { intros j Hj. apply Hv, in_or_app. auto. }
  rewrite Hl. simpl.
  destruct (nth_error (Py.keys db) i) as [fid|] eqn:Hn.
  - destruct (DictFacts.dict_get_key db fid) as (data & Hg).
    { eapply nth_error_In, Hn. }
    rewrite Hg. eauto.
  - apply nth_error_None in Hn.
    assert (i < length (Py.keys db)) by (apply Hv, in_or_app; simpl; auto).
    lia.
Qed.

Lemma slice_from_In {A} (start : Z) (l : list A) (x : A) :
  In x (Py.slice_from start l) -> In x l.
Proof.
  unfold Py.slice_from. intros H.
  rewrite <- (firstn_skipn
                (Z.to_nat
                   (if (start <? 0)%Z
                    then Z.max 0 (start + Z.of_nat (length l))
                    else Z.min start (Z.of_nat (length l)))) l).
  apply in_or_app. auto.
Qed.

(** Whatever [top_k], the indices ranked are rows of the array. *)
Lemma similar_indices_rows (row : list Q) (top_k : Z) (i : nat) :
  ArgsortOk E ->
  In i (similar_indices E row top_k) -> i < length row.
Proof.
  intros HE H. unfold similar_indices, Py.reversed in H.
  apply in_rev, slice_from_In in H.
  apply (RankFacts.argsort_In E row HE). exact H.
Qed.

End WithEnv.

End QueryFacts.

Module FindFacts.

Section WithEnv.

Variable E : Env.
Hypothesis Hsort : ArgsortOk E.
Hypothesis Hsk : SklearnOk E.

Lemma skipn_head {A} (d : nat) (l : list A) :
  d < length l ->
  exists x rest, skipn d l = x :: rest /\ nth_error l d = Some x.
Proof.
  intros Hd. rewrite <- hd_error_skipn.
  destruct (skipn d l) as [|x rest] eqn:Hs.
  - apply (f_equal (@length A)) in Hs. rewrite length_skipn in Hs.
    simpl in Hs. lia.
  - eauto.
Qed.

(** The row of similarities that a query computes on a fitted embedder. *)
Lemma query_row (self : CodeEmbedder E) (X : Matrix)
    (snapshot : list string) (target : Ast.FunctionDefNode) :
  FittedOn self X snapshot ->
  exists tv row,
    transform E (vectorizer self) [extract_code_features E target] = Some tv
    /\ nth_error (cosine_similarity E tv X) 0 = Some row
    /\ length row = length snapshot.
Proof.
  intros (_ & _ & Hv & Hx & _).
  destruct (Hv [extract_code_features E target]) as (tv & Ht & Hlen).
  destruct Hsk as (_ & _ & Hcos).
  destruct (Hcos tv X) as (Hl & Hall).
  destruct (cosine_similarity E tv X) as [|row sims] eqn:Hc.
  - simpl in Hl, Hlen. lia.
  - exists tv, row. rewrite Hc. repeat split; [exact Ht|].
    inversion Hall; subst. lia.
Qed.

(** With [top_k >= 1] on an embedder fitted on a non-empty corpus, the
    call returns one match: that of the row which [argsort] puts at
    position [rows - min(top_k, rows)]. *)
Lemma query_fitted (self : CodeEmbedder E) (X : Matrix)
    (snapshot : list string) (target : Ast.FunctionDefNode) (top_k : Z)
    (tv : Matrix) (row : list Q) :
  FittedOn self X snapshot ->
  snapshot <> [] ->
  (1 <= top_k)%Z ->
  transform E (vectorizer self) [extract_code_features E target] = Some tv ->
  nth_error (cosine_similarity E tv X) 0 = Some row ->
  length row = length snapshot ->
  exists idx fid data,
    nth_error (argsort E row)
      (length row - Nat.min (Z.to_nat top_k) (length row)) = Some idx
    /\ last (similar_indices E row top_k) 0 = idx
    /\ idx < length snapshot
    /\ nth_error snapshot idx = Some fid
    /\ Py.dict_get (function_database self) fid = Some data
    /\ find_similar_functions E target top_k self
       = (inr [ {| function_id := fid;
                   match_name := data_name data;
                   similarity := at_ row idx;
                   quality_score := data_quality_score data;
                   features := data_features data |} ],
          self, []).
Proof.
  intros (Hfit & Hemb & Hv & Hx & later & Hkeys) Hne Hk Htv Hrow Hlen.
  assert (Hpos : 0 < length row).
  { rewrite Hlen. destruct snapshot; [congruence | simpl; lia]. }
  set (d := length row - Nat.min (Z.to_nat top_k) (length row)).
  destruct (skipn_head d (argsort E row)) as (idx & rest & Hskip & Hnth).
  { rewrite (RankFacts.argsort_length E row Hsort). unfold d. lia. }
  assert (Hsim : similar_indices E row top_k = rev rest ++ [idx]).
  { rewrite (RankFacts.similar_indices_eq E row top_k Hsort Hk).
    fold d. rewrite Hskip. reflexivity. }
  assert (Hvalid : forall j, In j (rev rest ++ [idx]) ->
                             j < length (Py.keys (function_database self))).
  { intros j Hj. rewrite <- Hsim in Hj.
    apply (QueryFacts.similar_indices_rows E row top_k j Hsort) in Hj.
    rewrite Hkeys, length_app. lia. }
  assert (Hidx : idx < length snapshot).
  { rewrite <- Hlen.
    apply (QueryFacts.similar_indices_rows E row top_k idx Hsort).
    rewrite Hsim. apply in_or_app. simpl. auto. }
  destruct (QueryFacts.for_idx_last (function_database self) (rev rest) idx
              None Hvalid) as (fid & data & Hfid & Hget & Hloop).
  exists idx, fid, data. repeat split.
  - exact Hnth.
  - rewrite Hsim. apply last_last.
  - exact Hidx.
  - rewrite Hkeys, nth_error_app1 in Hfid by exact Hidx. exact Hfid.
  - exact Hget.
  - destruct (cosine_similarity E tv X) as [|row' sims] eqn:Hc;
      simpl in Hrow; [discriminate|]. injection Hrow as ->.
    unfold find_similar_functions, bind, getattr, get, lift, ret.
    rewrite Hfit. simpl. rewrite Htv. simpl. rewrite Hemb. simpl.
    rewrite Hc. simpl. rewrite Hsim, Hloop. simpl.
    rewrite (nth_error_nth' row 0%Q) by lia. reflexivity.
Qed.

End WithEnv.

End FindFacts.

(** C10 (as amended). On an embedder fitted on a non-empty corpus (and
    whatever was added since), [find_similar_functions] with [top_k >= 1]
    returns a list of exactly one match. With [r = min(top_k, rows)], it is
    the match of the row at place [r] of the descending ranking (the
    reversed [argsort] of the similarities), which is the last of the top-k
    candidates; it is not the row ranked first when [r >= 2] (and is that
    row when [r = 1]). Its id is the key that the row had at the fit and its
    similarity is that of the row. *)
Theorem find_similar_returns_kth
    (E : Env) (self : CodeEmbedder E) (later : list (Ast.FunctionDefNode * Q))
    (target : Ast.FunctionDefNode) (top_k : Z) :
  ArgsortOk E ->
  SklearnOk E ->
  function_database self <> [] ->
  (1 <= top_k)%Z ->
  let now := add_all E later (self_after (fit_embeddings E self)) in
  let snapshot := Py.keys (function_database self) in
  let rows := length snapshot in
  let r := Nat.min (Z.to_nat top_k) rows in
  exists X tv row idx fid data,
    embedding_vectors now = Some X
    /\ length X = rows
    /\ transform E (vectorizer now) [extract_code_features E target] = Some tv
    /\ nth_error (cosine_similarity E tv X) 0 = Some row
    /\ length row = rows
    /\ StronglySorted (fun i j => (at_ row j <= at_ row i)%Q)
         (rev (argsort E row))
    /\ nth_error (rev (argsort E row)) (r - 1) = Some idx
    /\ last (similar_indices E row top_k) 0 = idx
    /\ (2 <= r -> nth_error (rev (argsort E row)) 0 <> Some idx)
    /\ nth_error snapshot idx = Some fid
    /\ Py.dict_get (function_database now) fid = Some data
    /\ find_similar_functions E target top_k now
       = (inr [ {| function_id := fid;
                   match_name := data_name data;
                   similarity := at_ row idx;
                   quality_score := data_quality_score data;
                   features := data_features data |} ],
          now, []).
Proof.
  intros Hsort Hsk Hdb Hk now snapshot rows r.
  destruct (QueryFacts.fit_FittedOn E self Hsk Hdb) as (X & HF & _).
  apply (QueryFacts.add_all_FittedOn E later) in HF. fold now snapshot in HF.
  assert (Hne : snapshot <> []).
  { unfold snapshot, Py.keys. destruct (function_database self);
      [congruence | discriminate]. }
  destruct (FindFacts.query_row E Hsk now X snapshot target HF)
    as (tv & row & Htv & Hrow & Hlen).
  destruct (FindFacts.query_fitted E Hsort now X snapshot target top_k tv row
              HF Hne Hk Htv Hrow Hlen)
    as (idx & fid & data & Hnth & Hlast & Hidx & Hfid & Hget & Hrun).
  pose proof (RankFacts.argsort_length E row Hsort) as Hal.
  assert (Hrows : 0 < rows).
  { unfold rows. destruct snapshot; [congruence | simpl; lia]. }
  assert (Hplace : nth_error (rev (argsort E row)) (r - 1) = Some idx).
  { rewrite nth_error_rev, Hal, Hlen. fold rows.
    destruct (Nat.ltb_spec (r - 1) rows) as [_ | Hge]; [| unfold r in Hge; lia].
    rewrite <- Hnth, Hlen. fold rows. f_equal. unfold r. lia. }
  exists X, tv, row, idx, fid, data.
  destruct HF as (_ & Hemb & _ & Hx & _).
  repeat split; try assumption.
  - apply (SortedFacts.StronglySorted_rev
             (fun i j => (at_ row i <= at_ row j)%Q)).
    apply (Hsort row).
  - intros Hr Hfirst.
    pose proof (NoDup_rev (RankFacts.argsort_NoDup E row Hsort)) as Hnd.
    rewrite NoDup_nth_error in Hnd.
    assert (0 = r - 1); [| lia].
    apply Hnd; [rewrite length_rev, Hal, Hlen; exact Hrows|].
    now rewrite Hfirst, Hplace.
Qed.

(** C6. After a fit on a non-empty corpus and one more
    [add_function_to_database], the embedder is still fitted, with the
    vectorizer and the matrix of the fit: one row per record of the corpus
    as it was at the fit, while the corpus itself has grown by one when the
    id is new. A query computes its similarities against that matrix, every
    index it ranks is a row of it, whatever [top_k], and for [top_k >= 1]
    it returns normally a match whose id was a key at the fit. *)
Theorem stale_query_uses_snapshot
    (E : Env) (self : CodeEmbedder E) (f : Ast.FunctionDefNode) (q : Q)
    (target : Ast.FunctionDefNode) (top_k : Z) :
  ArgsortOk E ->
  SklearnOk E ->
  function_database self <> [] ->
  let fitted := self_after (fit_embeddings E self) in
  let added := add_function_to_database E f q fitted in
  let stale := self_after added in
  let snapshot := Py.keys (function_database self) in
  let rows := length snapshot in
  is_fitted stale = Some true
  /\ vectorizer stale = vectorizer fitted
  /\ embedding_vectors stale = embedding_vectors fitted
  /\ rows <= length (function_database stale)
  /\ (forall id, value added = inr id -> ~ In id snapshot ->
                 length (function_database stale) = S rows)
  /\ exists X tv row,
       embedding_vectors stale = Some X
       /\ length X = rows
       /\ transform E (vectorizer stale) [extract_code_features E target]
          = Some tv
       /\ nth_error (cosine_similarity E tv X) 0 = Some row
       /\ length row = rows
       /\ (forall i, In i (similar_indices E row top_k) -> i < rows)
       /\ ((1 <= top_k)%Z ->
           exists m idx,
             find_similar_functions E target top_k stale = (inr [m], stale, [])
             /\ idx < rows
             /\ nth_error snapshot idx = Some (function_id m)
             /\ similarity m = at_ row idx).
Proof.
  intros Hsort Hsk Hdb fitted added stale snapshot rows.
  destruct (QueryFacts.fit_FittedOn E self Hsk Hdb) as (X & HF & Hsame).
  fold fitted in HF, Hsame.
  pose proof (QueryFacts.add_FittedOn E f q fitted X _ HF) as HS.
  fold added stale snapshot in HS.
  destruct (QueryFacts.add_state E f q fitted) as (Hv & He & Hf & id & data & Hd).
  fold added stale in Hv, He, Hf, Hd.
  assert (Hne : snapshot <> []).
  { unfold snapshot, Py.keys. destruct (function_database self);
      [congruence | discriminate]. }
  destruct (FindFacts.query_row E Hsk stale X snapshot target HS)
    as (tv & row & Htv & Hrow & Hlen).
  destruct HS as (Hfit & Hemb & Hvf & Hx & tail & Hkeys).
  assert (Hsize : length (function_database stale) = rows + length tail).
  { unfold rows. rewrite <- length_app, <- Hkeys. unfold Py.keys.
    now rewrite length_map. }
  repeat split; try assumption.
  - lia.
  - intros id' Hid Hnew. rewrite Hsize.
    unfold stale, added in Hkeys. unfold added in Hid.
    rewrite QueryFacts.add_run in Hkeys, Hid.
    unfold value in Hid. simpl in Hid, Hkeys. injection Hid as Hid.
    rewrite Hid, Hsame in Hkeys.
    rewrite DictFacts.set_new_key in Hkeys by exact Hnew.
    apply app_inv_head in Hkeys. subst tail. simpl. lia.
  - exists X, tv, row. repeat split; try assumption.
    + intros i Hi. unfold rows. rewrite <- Hlen.
      eapply QueryFacts.similar_indices_rows; eassumption.
    + intros Hk.
      destruct (FindFacts.query_fitted E Hsort stale X snapshot target top_k
                  tv row) as (idx & fid & d & _ & _ & Hidx & Hfid & _ & Hrun);
        try assumption.
      { unfold FittedOn. repeat split; try assumption. eauto. }
      eexists. exists idx. split; [exact Hrun|]. simpl. auto.
Qed.

(** C1 (what the code does). On an embedder fitted on a non-empty corpus,
    [find_similar_functions] with [top_k >= 1] returns a list of length 1:
    the [append] sits after the loop. With one record that is
    [min(top_k, rows)]; with two records or more and [top_k >= 2] it is
    not. *)
Theorem find_similar_single_match
    (E : Env) (self : CodeEmbedder E) (target : Ast.FunctionDefNode)
    (top_k : Z) :
  ArgsortOk E ->
  SklearnOk E ->
  function_database self <> [] ->
  (1 <= top_k)%Z ->
  let fitted := self_after (fit_embeddings E self) in
  let rows := length (function_database self) in
  exists matches,
    value (find_similar_functions E target top_k fitted) = inr matches
    /\ length matches = 1
    /\ (rows = 1 -> length matches = Nat.min (Z.to_nat top_k) rows)
    /\ (2 <= rows -> (2 <= top_k)%Z ->
        length matches <> Nat.min (Z.to_nat top_k) rows).
Proof.
  intros Hsort Hsk Hdb Hk fitted rows.
  destruct (QueryFacts.fit_FittedOn E self Hsk Hdb) as (X & HF & _).
  fold fitted in HF.
  assert (Hne : Py.keys (function_database self) <> []).
  { unfold Py.keys. destruct (function_database self);
      [congruence | discriminate]. }
  destruct (FindFacts.query_row E Hsk fitted X _ target HF)
    as (tv & row & Htv & Hrow & Hlen).
  destruct (FindFacts.query_fitted E Hsort fitted X _ target top_k tv row
              HF Hne Hk Htv Hrow Hlen)
    as (idx & fid & data & _ & _ & _ & _ & _ & Hrun).
  eexists. split; [rewrite Hrun; reflexivity|].
  simpl. repeat split; intros; lia.
Qed.

Lemma two_records_nonempty : function_database two_records <> [].
Proof. vm_compute. discriminate. Defined.

Lemma three_records_nonempty : function_database three_records <> [].
Proof. vm_compute. discriminate. Defined.

Lemma find_similar_single_match_witness :
  length (function_database two_records) = 2
  /\ exists matches,
       value (find_similar_functions Demo.env Samples.compute_order_summary 2
                (self_after (fit_embeddings Demo.env two_records)))
       = inr matches
       /\ length matches = 1
       /\ length matches <> Nat.min 2 2.
Proof.
  split; [reflexivity|].
  destruct (find_similar_single_match Demo.env two_records
              Samples.compute_order_summary 2
              Demo_argsort_ok Demo_sklearn_ok two_records_nonempty
              ltac:(lia))
    as (matches & Hrun & Hone & _ & Htwo).
  exists matches. repeat split; [exact Hrun | exact Hone |].
  apply Htwo; [vm_compute; lia | lia].
Defined.

Lemma find_similar_returns_kth_witness :
  exists m,
    find_similar_functions Demo.env Samples.compute_order_summary 5
      (self_after (fit_embeddings Demo.env three_records))
    = (inr [m], self_after (fit_embeddings Demo.env three_records), [])
    /\ In (function_id m) (Py.keys (function_database three_records)).
Proof.
  destruct (find_similar_returns_kth Demo.env three_records []
              Samples.compute_order_summary 5
              Demo_argsort_ok Demo_sklearn_ok three_records_nonempty
              ltac:(lia))
    as (X & tv & row & idx & fid & data
        & _ & _ & _ & _ & _ & _ & _ & _ & _ & Hkey & _ & Hrun).
  eexists. split; [exact Hrun|].
  apply (nth_error_In _ idx). exact Hkey.
Defined.

(** C10 (as stated) fails for [top_k = 1]: on the corpus of the
    demonstration the one match returned is that of the row ranked first,
    the best match. *)
Lemma find_similar_top1_counterexample :
  let fitted := self_after (fit_embeddings Demo.env three_records) in
  exists X tv row best m,
    embedding_vectors fitted = Some X
    /\ transform Demo.env (vectorizer fitted)
         [extract_code_features Demo.env Samples.compute_order_summary]
       = Some tv
    /\ nth_error (cosine_similarity Demo.env tv X) 0 = Some row
    /\ hd_error (rev (argsort Demo.env row)) = Some best
    /\ value (find_similar_functions Demo.env Samples.compute_order_summary 1
                fitted)
       = inr [m]
    /\ nth_error (Py.keys (function_database fitted)) best
       = Some (function_id m)
    /\ similarity m = at_ row best.
Proof.
  intros fitted. do 5 eexists.
  split; [vm_compute; reflexivity|].
  split; [vm_compute; reflexivity|].
  split; [vm_compute; reflexivity|].
  split; [vm_compute; reflexivity|].
  split; [vm_compute; reflexivity|].
  split; vm_compute; reflexivity.
Qed.

Lemma stale_query_uses_snapshot_witness :
  let fitted := self_after (fit_embeddings Demo.env two_records) in
  let stale :=
    self_after
      (add_function_to_database Demo.env Samples.validate_input (9 # 10)
         fitted) in
  is_fitted stale = Some true
  /\ embedding_vectors stale = embedding_vectors fitted
  /\ length (function_database stale) = 3
  /\ exists m,
       find_similar_functions Demo.env Samples.compute_order_summary 5 stale
       = (inr [m], stale, [])
       /\ In (function_id m) (Py.keys (function_database two_records)).
Proof.
  intros fitted stale.
  destruct (stale_query_uses_snapshot Demo.env two_records
              Samples.validate_input (9 # 10) Samples.compute_order_summary 5
              Demo_argsort_ok Demo_sklearn_ok two_records_nonempty)
    as (H1 & _ & H3 & _ & H5 & X & tv & row & _ & _ & _ & _ & _ & _ & H7).
  split; [| split; [| split]].
  - exact H1.
  - exact H3.
  - apply (H5 _ eq_refl). vm_compute. intuition discriminate.
  - destruct (H7 ltac:(lia)) as (m & idx & Hrun & _ & Hkey & _).
    exists m. split; [exact Hrun|]. apply (nth_error_In _ idx). exact Hkey.
Defined.

(* ================================================================== *)
(** ** Counting over the tree *)

Module CountFacts.

Import Ast.

Lemma filter_length_perm {A} (p : A -> bool) (l l' : list A) :
  Permutation l l' -> length (filter p l) = length (filter p l').
Proof.
  induction 1 as [| x l l' _ IH | x y l | l l' l'' _ IH1 _ IH2]; simpl.
  - reflexivity.
  - destruct (p x); simpl; now rewrite IH.
  - destruct (p x), (p y); reflexivity.
  - now rewrite IH1.
Qed.

(** A count over the walk is a count over the tree. *)
Lemma count_class_walk (c : node_class) (node : AST) :
  count_class c (walk node) = count_class c (preorder node).
Proof. apply filter_length_perm, WalkFacts.walk_preorder. Qed.

(** The loop of [calculate_max_nesting] only ever counts up. *)
Lemma nesting_fold (nodes : list AST) :
  forall m c,
    m <= c ->
    fold_left nesting_step nodes (m, c)
    = (if length (filter is_block nodes) =? 0 then m
       else c + length (filter is_block nodes),
       c + length (filter is_block nodes)).
Proof.
  induction nodes as [|node nodes IH]; intros m c Hmc; simpl.
  - f_equal. lia.
  - destruct (is_block node) eqn:Hb; simpl.
    + rewrite IH by lia.
      destruct (length (filter is_block nodes)) as [|k] eqn:Hk; simpl.
      * f_equal; lia.
      * f_equal; lia.
    + apply IH, Hmc.
Qed.

End CountFacts.

Lemma return_pattern_cases (node : Ast.AST) :
  _extract_return_pattern node
  = match count_class Ast.Return (Ast.preorder node) with
    | 0 => "return_none"
    | 1 => "return_single"
    | _ => "return_multiple"
    end.
Proof.
  rewrite <- CountFacts.count_class_walk.
  unfold _extract_return_pattern, count_class.
  destruct (filter _ (Ast.walk node)) as [|r [|r' rs]]; reflexivity.
Qed.

(** X1. The return pattern is read off the number of [Return] nodes
    anywhere in the tree of the function, nested definitions included:
    none, exactly one, or more. *)
Theorem return_pattern_by_count (node : Ast.AST) :
  _extract_return_pattern node
  = match count_class Ast.Return (Ast.preorder node) with
    | 0 => "return_none"
    | 1 => "return_single"
    | _ => "return_multiple"
    end.
Proof. apply return_pattern_cases. Qed.

(** X2. The complexity channel depends on the tree through two counts
    only: it emits [High_conditional_complexity] from four [If] nodes on,
    then [High_loop_complexity] from three [For] or [While] nodes on
    ([AsyncFor] is not counted), in this order. *)
Theorem complexity_features_by_count (node : Ast.AST) :
  let ifs := count_class Ast.If (Ast.preorder node) in
  let loops :=
    count_class Ast.For (Ast.preorder node)
    + count_class Ast.While (Ast.preorder node) in
  _extract_complexity_features node
  = (if 4 <=? ifs then ["High_conditional_complexity"] else [])
    ++ (if 3 <=? loops then ["High_loop_complexity"] else []).
Proof.
  intros ifs loops. unfold _extract_complexity_features.
  rewrite !CountFacts.count_class_walk. fold ifs. fold loops.
  change (3 <? ifs) with (4 <=? ifs). change (2 <? loops) with (3 <=? loops).
  destruct (4 <=? ifs), (3 <=? loops); reflexivity.
Qed.

(** X3. [calculate_max_nesting] never lowers [current_depth]: what it
    returns is the number of [FunctionDef], [ClassDef], [If], [For] and
    [While] nodes of the whole tree, not the depth to which they nest. *)
Theorem max_nesting_is_block_count (tree : Ast.AST) :
  calculate_max_nesting tree = length (filter is_block (Ast.preorder tree)).
Proof.
  unfold calculate_max_nesting.
  rewrite CountFacts.nesting_fold by lia. simpl.
  rewrite (CountFacts.filter_length_perm is_block _ _
             (WalkFacts.walk_preorder tree)).
  destruct (length (filter is_block (Ast.preorder tree))); reflexivity.
Qed.

(* ================================================================== *)
(** ** The feature string and its tokens *)

Module StrFacts.

Lemma append_nil_r (s : string) : (s ++ "")%string = s.
Proof. induction s as [|c s IH]; simpl; [reflexivity | now rewrite IH]. Qed.

Lemma append_assoc (a b c : string) :
  ((a ++ b) ++ c)%string = (a ++ (b ++ c))%string.
Proof. induction a as [|x a IH]; simpl; [reflexivity | now rewrite IH]. Qed.

Lemma append_inv_head (a b c : string) :
  (a ++ b)%string = (a ++ c)%string -> b = c.
Proof.
  induction a as [|x a IH]; simpl; intros H; [exact H|].
  injection H as H. apply IH, H.
Qed.

Lemma no_blank_app (a b : string) :
  PyStr.no_blank (a ++ b) = PyStr.no_blank a && PyStr.no_blank b.
Proof.
  induction a as [|c a IH]; simpl; [reflexivity|].
  rewrite IH. now rewrite andb_assoc.
Qed.

(** Reading a run without blanks extends the current run. *)
Lemma split_from_run (t : string) :
  forall cur rest,
    PyStr.no_blank t = true ->
    PyStr.split_from cur (t ++ rest) = PyStr.split_from (cur ++ t) rest.
Proof.
  induction t as [|c t IH]; intros cur rest Ht; simpl.
  - now rewrite append_nil_r.
  - simpl in Ht. apply andb_prop in Ht. destruct Ht as [Hc Ht].
    apply negb_true_iff in Hc. rewrite Hc, IH by exact Ht.
    now rewrite append_assoc.
Qed.

Lemma split_from_last (t cur : string) :
  PyStr.no_blank t = true ->
  PyStr.split_from cur t
  = if PyStr.truthy (cur ++ t) then [(cur ++ t)%string] else [].
Proof.
  intros Ht. rewrite <- (append_nil_r t) at 1.
  rewrite split_from_run by exact Ht. simpl.
  destruct (cur ++ t)%string; reflexivity.
Qed.

Lemma split_from_space (cur rest : string) :
  PyStr.split_from cur (String " " rest)
  = match cur with
    | EmptyString => PyStr.split_from EmptyString rest
    | String _ _ => cur :: PyStr.split_from EmptyString rest
    end.
Proof. reflexivity. Qed.

(** Splitting what [' '.join] made gives the parts back, when no part is
    empty or holds a blank. *)
Lemma split_join (parts : list string) :
  Forall (fun t => PyStr.no_blank t = true /\ t <> EmptyString) parts ->
  PyStr.split (Py.join " " parts) = parts.
Proof.
  unfold PyStr.split, Py.join.
  induction 1 as [|t parts [Hb Hne] Hall IH]; [reflexivity|].
  destruct parts as [|t' parts'].
  - simpl. rewrite split_from_last by exact Hb. simpl.
    destruct t; [congruence | reflexivity].
  - change (String.concat " " (t :: t' :: parts'))
      with (t ++ String " " (String.concat " " (t' :: parts')))%string.
    set (rest := String.concat " " (t' :: parts')) in *.
    rewrite split_from_run by exact Hb.
    change ("" ++ t)%string with t. rewrite split_from_space.
    destruct t; [congruence|]. now rewrite IH.
Qed.

Lemma digits_no_blank (d : Decimal.uint) :
  PyStr.no_blank (NilEmpty.string_of_uint d) = true.
Proof. induction d; simpl; auto. Qed.

Lemma str_of_nat_no_blank (n : nat) : PyStr.no_blank (Py.str_of_nat n) = true.
Proof. apply digits_no_blank. Qed.

Lemma str_of_nat_inj (n m : nat) :
  Py.str_of_nat n = Py.str_of_nat m -> n = m.
Proof.
  unfold Py.str_of_nat. intros H.
  apply (f_equal NilEmpty.uint_of_string) in H.
  rewrite !NilEmpty.usu in H. injection H as H.
  apply (f_equal Nat.of_uint) in H.
  now rewrite !DecimalNat.Unsigned.of_to in H.
Qed.

Lemma str_of_nat_eqb (n m : nat) :
  String.eqb (Py.str_of_nat n) (Py.str_of_nat m) = (n =? m).
Proof.
  destruct (Nat.eqb_spec n m) as [-> | Hne].
  - apply String.eqb_refl.
  - apply String.eqb_neq. intros H. apply Hne, str_of_nat_inj, H.
Qed.

Lemma structural_token_ok (t : string) :
  In t structural_tokens ->
  PyStr.no_blank t = true /\ t <> EmptyString
  /\ PyStr.in_list t low_quality_indicators = false
  /\ PyStr.in_list t high_quality_indicators = String.eqb t "return_single".
Proof.
  unfold structural_tokens, operation_tokens. simpl.
  intros H.
  repeat (destruct H as [<- | H];
          [repeat split; try reflexivity; discriminate|]).
  destruct H.
Qed.

End StrFacts.

Module TokenFacts.

Section WithEnv.

Variable E : Env.
Hypothesis HE : SetIterOk E.

(** The tokens after the signature are tokens of the other channels. *)
Lemma channels_structural (node : Ast.AST) :
  Forall (fun t => In t structural_tokens)
    (_extract_operations E node ++ _extract_complexity_features node
     ++ [_extract_return_pattern node]).
Proof.
  apply Forall_app. split; [| apply Forall_app; split].
  - apply Forall_forall. intros t Ht.
    destruct (emitted_operations E node HE) as (_ & Hincl & _).
    apply (in_or_app operation_tokens (skipn 6 structural_tokens)).
    left. apply Hincl, Ht.
  - apply Forall_forall. intros t Ht.
    apply (complexity_tokens_listed node), Ht.
  - constructor; [apply return_pattern_listed | constructor].
Qed.

Lemma feature_list_eq (f : Ast.FunctionDefNode) :
  feature_list E f
  = ("func_" ++ Ast.name f)%string
    :: ("args_" ++ Py.str_of_nat (length (Ast.args_ (Ast.args f))))%string
    :: (_extract_operations E (Ast.as_node f)
        ++ _extract_complexity_features (Ast.as_node f)
        ++ [_extract_return_pattern (Ast.as_node f)]).
Proof. unfold feature_list. simpl. now rewrite <- app_assoc. Qed.

Lemma feature_tokens_ok (f : Ast.FunctionDefNode) :
  PyStr.no_blank (Ast.name f) = true ->
  Forall (fun t => PyStr.no_blank t = true /\ t <> EmptyString)
    (feature_list E f).
Proof.
  intros Hname. rewrite feature_list_eq.
  constructor; [| constructor].
  - split; [| discriminate].
    rewrite StrFacts.no_blank_app, Hname. reflexivity.
  - split; [| discriminate].
    rewrite StrFacts.no_blank_app, StrFacts.str_of_nat_no_blank. reflexivity.
  - eapply Forall_impl; [| apply channels_structural].
    intros t Ht. apply StrFacts.structural_token_ok in Ht. tauto.
Qed.

Lemma split_features (f : Ast.FunctionDefNode) :
  PyStr.no_blank (Ast.name f) = true ->
  PyStr.split (extract_code_features E f) = feature_list E f.
Proof.
  intros Hname. unfold extract_code_features.
  apply StrFacts.split_join, feature_tokens_ok, Hname.
Qed.

Lemma filter_structural_low (l : list string) :
  Forall (fun t => In t structural_tokens) l ->
  filter (fun t => PyStr.in_list t low_quality_indicators) l = [].
Proof.
  induction 1 as [|t l Ht _ IH]; cbn [filter]; [reflexivity|].
  apply StrFacts.structural_token_ok in Ht.
  destruct Ht as (_ & _ & -> & _). exact IH.
Qed.

Lemma args_token_low (n : nat) :
  PyStr.in_list ("args_" ++ Py.str_of_nat n) low_quality_indicators
  = (n =? 5) || (n =? 6) || (n =? 7).
Proof.
  unfold PyStr.in_list, low_quality_indicators.
  cbn [existsb].
  change (("args_" ++ Py.str_of_nat n)%string =? "high_conditional_complexity")%string
    with false.
  change (("args_" ++ Py.str_of_nat n)%string =? "high_loop_complexity")%string
    with false.
  change (("args_" ++ Py.str_of_nat n)%string =? "args_5")%string
    with (Py.str_of_nat n =? Py.str_of_nat 5)%string.
  change (("args_" ++ Py.str_of_nat n)%string =? "args_6")%string
    with (Py.str_of_nat n =? Py.str_of_nat 6)%string.
  change (("args_" ++ Py.str_of_nat n)%string =? "args_7")%string
    with (Py.str_of_nat n =? Py.str_of_nat 7)%string.
  rewrite !StrFacts.str_of_nat_eqb. simpl. now rewrite orb_false_r, orb_assoc.
Qed.

Lemma issues_matches_eq (f : Ast.FunctionDefNode) :
  PyStr.no_blank (Ast.name f) = true ->
  let n := length (Ast.args_ (Ast.args f)) in
  issues_matches E f
  = if (5 <=? n) && (n <=? 7)
    then [("args_" ++ Py.str_of_nat n)%string] else [].
Proof.
  intros Hname n. unfold issues_matches.
  rewrite split_features by exact Hname. rewrite feature_list_eq.
  cbn [filter].
  change (PyStr.in_list ("func_" ++ Ast.name f) low_quality_indicators)
    with false.
  fold n. rewrite args_token_low.
  rewrite filter_structural_low by apply channels_structural.
  assert (Hb : (n =? 5) || (n =? 6) || (n =? 7) = (5 <=? n) && (n <=? 7)).
  { destruct (Nat.eqb_spec n 5), (Nat.eqb_spec n 6), (Nat.eqb_spec n 7),
      (Nat.leb_spec 5 n), (Nat.leb_spec n 7);
      simpl; try reflexivity; exfalso; lia. }
  rewrite Hb. reflexivity.
Qed.

End WithEnv.

End TokenFacts.

(** X4. The feature string splits back into the feature tokens: no token
    is empty or holds a blank, provided the function name holds none (as a
    Python identifier does), so [features.split()] in
    [_pattern_based_analysis] sees exactly the tokens that
    [extract_code_features] joined. *)
Theorem split_extract_round_trip (E : Env) (f : Ast.FunctionDefNode) :
  SetIterOk E ->
  PyStr.no_blank (Ast.name f) = true ->
  PyStr.split (extract_code_features E f) = feature_list E f.
Proof. intros HE Hname. apply TokenFacts.split_features; assumption. Qed.

Lemma split_extract_round_trip_witness :
  PyStr.split (extract_code_features Demo.env Samples.validate_input)
  = feature_list Demo.env Samples.validate_input.
Proof.
  exact (split_extract_round_trip Demo.env Samples.validate_input
           Demo_set_iter_ok eq_refl).
Defined.

(** X5. [_pattern_based_analysis] reports a concerning pattern exactly for
    a function with 5, 6 or 7 entries in [args.args], and then it is the
    [args_<n>] token alone: the complexity tokens that the extractor emits
    start with a capital and never match the lower-case indicators. *)
Theorem concerning_patterns_only_args (E : Env) (f : Ast.FunctionDefNode) :
  SetIterOk E ->
  PyStr.no_blank (Ast.name f) = true ->
  let n := length (Ast.args_ (Ast.args f)) in
  issues_matches E f
  = (if (5 <=? n) && (n <=? 7)
     then [("args_" ++ Py.str_of_nat n)%string] else [])
  /\ exists good,
       length good <= 1
       /\ _pattern_based_analysis E f
          = good
            ++ (if (5 <=? n) && (n <=? 7)
                then [("Concerning patterns : args_" ++ Py.str_of_nat n)%string]
                else []).
Proof.
  intros HE Hname n.
  pose proof (TokenFacts.issues_matches_eq E HE f Hname) as Hi.
  fold n in Hi. split; [exact Hi|].
  unfold _pattern_based_analysis. rewrite Hi.
  exists (match quality_matches E f with
          | [] => []
          | _ :: _ =>
              [("Good patterns : "
                ++ Py.join ", " (quality_matches E f))%string]
          end).
  split.
  - destruct (quality_matches E f); simpl; lia.
  - destruct (quality_matches E f); destruct ((5 <=? n) && (n <=? 7));
      reflexivity.
Qed.

Module GoodPatternFacts.

Section WithEnv.

Variable E : Env.
Hypothesis HE : SetIterOk E.

Lemma filter_operations_high (node : Ast.AST) :
  filter (fun t => PyStr.in_list t high_quality_indicators)
    (_extract_operations E node) = [].
Proof.
  destruct (emitted_operations E node HE) as (_ & Hincl & _).
  induction (_extract_operations E node) as [|t l IH]; [reflexivity|].
  cbn [filter].
  assert (Ht : In t operation_tokens) by (apply Hincl; simpl; auto).
  assert (Hf : PyStr.in_list t high_quality_indicators = false).
  { unfold operation_tokens in Ht. simpl in Ht.
    repeat (destruct Ht as [<- | Ht]; [reflexivity|]). destruct Ht. }
  rewrite Hf. apply IH. intros x Hx. apply Hincl. simpl. auto.
Qed.

Lemma filter_complexity_high (node : Ast.AST) :
  filter (fun t => PyStr.in_list t high_quality_indicators)
    (_extract_complexity_features node) = [].
Proof.
  unfold _extract_complexity_features.
  destruct (3 <? _); destruct (2 <? _); reflexivity.
Qed.

Lemma filter_return_high (node : Ast.AST) :
  filter (fun t => PyStr.in_list t high_quality_indicators)
    [_extract_return_pattern node]
  = if count_class Ast.Return (Ast.preorder node) =? 1
    then ["return_single"] else [].
Proof.
  rewrite return_pattern_cases.
  destruct (count_class Ast.Return (Ast.preorder node)) as [|[|k]];
    reflexivity.
Qed.

Lemma args_token_high (n : nat) :
  PyStr.in_list ("args_" ++ Py.str_of_nat n) high_quality_indicators
  = (n =? 2) || (n =? 3).
Proof.
  unfold PyStr.in_list, high_quality_indicators.
  cbn [existsb].
  change (("args_" ++ Py.str_of_nat n)%string =? "func_calculate")%string
    with false.
  change (("args_" ++ Py.str_of_nat n)%string =? "func_process")%string
    with false.
  change (("args_" ++ Py.str_of_nat n)%string =? "func_validate")%string
    with false.
  change (("args_" ++ Py.str_of_nat n)%string =? "return_single")%string
    with false.
  change (("args_" ++ Py.str_of_nat n)%string =? "args_2")%string
    with (Py.str_of_nat n =? Py.str_of_nat 2)%string.
  change (("args_" ++ Py.str_of_nat n)%string =? "args_3")%string
    with (Py.str_of_nat n =? Py.str_of_nat 3)%string.
  rewrite !StrFacts.str_of_nat_eqb. simpl. now rewrite orb_false_r.
Qed.

Lemma func_token_high (name : string) :
  PyStr.in_list ("func_" ++ name) high_quality_indicators
  = PyStr.in_list name ["calculate"; "process"; "validate"].
Proof. reflexivity. Qed.

Lemma quality_matches_eq (f : Ast.FunctionDefNode) :
  PyStr.no_blank (Ast.name f) = true ->
  let n := length (Ast.args_ (Ast.args f)) in
  quality_matches E f
  = (if PyStr.in_list (Ast.name f) ["calculate"; "process"; "validate"]
     then [("func_" ++ Ast.name f)%string] else [])
    ++ (if (n =? 2) || (n =? 3)
        then [("args_" ++ Py.str_of_nat n)%string] else [])
    ++ (if count_class Ast.Return (Ast.preorder (Ast.as_node f)) =? 1
        then ["return_single"] else []).
Proof.
  intros Hname n. unfold quality_matches.
  rewrite (TokenFacts.split_features E HE f Hname).
  rewrite TokenFacts.feature_list_eq.
  cbn [filter]. rewrite func_token_high. fold n. rewrite args_token_high.
  rewrite !filter_app, filter_operations_high, filter_complexity_high,
    filter_return_high.
  destruct (PyStr.in_list (Ast.name f) _); destruct ((n =? 2) || (n =? 3));
    reflexivity.
Qed.

End WithEnv.

End GoodPatternFacts.

(** X6. The good patterns that [_pattern_based_analysis] finds are, in this
    order: [func_<name>] when the name is exactly [calculate], [process] or
    [validate] (a longer name such as [calculate_total] does not match),
    [args_<n>] when [args.args] has 2 or 3 entries, and [return_single]
    when the tree holds exactly one [Return] node. *)
Theorem good_patterns_exact (E : Env) (f : Ast.FunctionDefNode) :
  SetIterOk E ->
  PyStr.no_blank (Ast.name f) = true ->
  let n := length (Ast.args_ (Ast.args f)) in
  quality_matches E f
  = (if PyStr.in_list (Ast.name f) ["calculate"; "process"; "validate"]
     then [("func_" ++ Ast.name f)%string] else [])
    ++ (if (n =? 2) || (n =? 3)
        then [("args_" ++ Py.str_of_nat n)%string] else [])
    ++ (if count_class Ast.Return (Ast.preorder (Ast.as_node f)) =? 1
        then ["return_single"] else []).
Proof. intros HE Hname. apply GoodPatternFacts.quality_matches_eq; assumption. Qed.

Lemma good_patterns_exact_witness :
  quality_matches Demo.env Samples.validate_input
  = ["args_2"; "return_single"].
Proof.
  exact (good_patterns_exact Demo.env Samples.validate_input
           Demo_set_iter_ok eq_refl).
Defined.

(* ================================================================== *)
(** ** More on queries *)

Module PlaceFacts.

(** From a position in the ascending [argsort] to the place in the
    descending ranking. *)
Lemma descending_place (E : Env) (row : list Q) (d idx : nat) :
  ArgsortOk E ->
  d < length row ->
  nth_error (argsort E row) d = Some idx ->
  nth_error (rev (argsort E row)) (length row - d - 1) = Some idx.
Proof.
  intros HE Hd Hnth.
  rewrite nth_error_rev, (RankFacts.argsort_length E row HE).
  destruct (Nat.ltb_spec (length row - d - 1) (length row)) as [_ | Hge];
    [| lia].
  rewrite <- Hnth. f_equal. lia.
Qed.

End PlaceFacts.

(** X7. On an embedder fitted on a non-empty corpus,
    [_similar_function_analysis] takes as its best match the row at place
    [min(3, rows)] of the descending ranking (with three rows or more: the
    third, not the first), and reports it, in two lines, exactly when the
    similarity of that row exceeds the float [0.7]; it leaves the embedder
    as it is. *)
Theorem similar_analysis_uses_third
    (E : Env) (format_2f format_float : Q -> string)
    (self : CodeEmbedder E) (later : list (Ast.FunctionDefNode * Q))
    (function : Ast.FunctionDefNode) :
  ArgsortOk E ->
  SklearnOk E ->
  function_database self <> [] ->
  let now := add_all E later (self_after (fit_embeddings E self)) in
  let rows := length (Py.keys (function_database self)) in
  let r := Nat.min 3 rows in
  exists X tv row idx fid data,
    embedding_vectors now = Some X
    /\ transform E (vectorizer now) [extract_code_features E function]
       = Some tv
    /\ nth_error (cosine_similarity E tv X) 0 = Some row
    /\ nth_error (rev (argsort E row)) (r - 1) = Some idx
    /\ nth_error (Py.keys (function_database self)) idx = Some fid
    /\ Py.dict_get (function_database now) fid = Some data
    /\ _similar_function_analysis E format_2f format_float function now
       = (inr (if negb (Qle_bool (at_ row idx) confidence_threshold)
               then [ ("Similar to : " ++ data_name data
                       ++ " (confidence : " ++ format_2f (at_ row idx)
                       ++ ")")%string;
                      ("Pattern quality score: "
                       ++ format_float (data_quality_score data))%string ]
               else []),
          now, []).
Proof.
  intros Hsort Hsk Hdb now rows r.
  destruct (QueryFacts.fit_FittedOn E self Hsk Hdb) as (X & HF & _).
  apply (QueryFacts.add_all_FittedOn E later) in HF. fold now in HF.
  assert (Hne : Py.keys (function_database self) <> []).
  { unfold Py.keys. destruct (function_database self);
      [congruence | discriminate]. }
  destruct (FindFacts.query_row E Hsk now X _ function HF)
    as (tv & row & Htv & Hrow & Hlen).
  destruct (FindFacts.query_fitted E Hsort now X _ function 3 tv row
              HF Hne ltac:(lia) Htv Hrow Hlen)
    as (idx & fid & data & Hnth & _ & Hidx & Hfid & Hget & Hrun).
  assert (Hrows : 0 < rows).
  { unfold rows. destruct (Py.keys (function_database self));
      [congruence | simpl; lia]. }
  exists X, tv, row, idx, fid, data.
  destruct HF as (_ & Hemb & _).
  repeat split; try assumption.
  - apply PlaceFacts.descending_place in Hnth; [| exact Hsort | lia].
    rewrite <- Hnth. f_equal. rewrite Hlen. fold rows. unfold r.
    change (Z.to_nat 3) with 3. lia.
  - unfold _similar_function_analysis, bind. rewrite Hrun.
    cbn [similarity match_name quality_score].
    destruct (negb (Qle_bool (at_ row idx) confidence_threshold));
      reflexivity.
Qed.

(* ================================================================== *)
(** ** More on the corpus *)

Module CorpusFacts.

Lemma keys_set_present {V} (d : Py.dict V) (k : string) (v : V) :
  In k (Py.keys d) -> Py.keys (Py.dict_set d k v) = Py.keys d.
Proof.
  unfold Py.keys.
  induction d as [|[k' v'] d IH]; simpl; [tauto|].
  intros Hin. destruct (String.eqb k' k) eqn:Hk; [reflexivity|].
  simpl. f_equal. apply IH. destruct Hin as [-> | Hin]; [| exact Hin].
  rewrite String.eqb_refl in Hk. discriminate.
Qed.

Lemma dict_get_set_other {V} (d : Py.dict V) (k k' : string) (v : V) :
  k' <> k -> Py.dict_get (Py.dict_set d k v) k' = Py.dict_get d k'.
Proof.
  intros Hne.
  induction d as [|[k0 v0] d IH]; simpl.
  - destruct (String.eqb k k') eqn:Hk; [| reflexivity].
    apply String.eqb_eq in Hk. congruence.
  - destruct (String.eqb k0 k) eqn:Hk; simpl.
    + apply String.eqb_eq in Hk. subst k0.
      destruct (String.eqb k k') eqn:Hk'; [| reflexivity].
      apply String.eqb_eq in Hk'. congruence.
    + destruct (String.eqb k0 k'); [reflexivity | exact IH].
Qed.

Lemma key_after_set {V} (d : Py.dict V) (k : string) (v : V) :
  In k (Py.keys (Py.dict_set d k v)).
Proof.
  destruct (in_dec string_dec k (Py.keys d)) as [Hin | Hout].
  - rewrite keys_set_present by exact Hin. exact Hin.
  - rewrite DictFacts.set_new_key by exact Hout.
    apply in_or_app. simpl. auto.
Qed.

Lemma keys_set_NoDup {V} (d : Py.dict V) (k : string) (v : V) :
  NoDup (Py.keys d) -> NoDup (Py.keys (Py.dict_set d k v)).
Proof.
  intros Hnd. destruct (in_dec string_dec k (Py.keys d)) as [Hin | Hout].
  - now rewrite keys_set_present.
  - rewrite DictFacts.set_new_key by exact Hout.
    apply NoDup_app; [exact Hnd | repeat constructor; simpl; tauto |].
    intros x Hx [<- | []]. contradiction.
Qed.

Lemma keys_set_length {V} (d : Py.dict V) (k : string) (v : V) :
  length (Py.dict_set d k v) <= S (length d).
Proof.
  induction d as [|[k' v'] d IH]; simpl; [lia|].
  destruct (String.eqb k' k); simpl; lia.
Qed.

Section WithEnv.

Variable E : Env.

(** The id that [add_function_to_database] derives. *)
Let id_of (f : Ast.FunctionDefNode) : string :=
  (Ast.name f ++ "_"
   ++ substring 0 8 (md5_hexdigest E (extract_code_features E f)))%string.

Lemma add_all_unfitted (adds : list (Ast.FunctionDefNode * Q)) :
  forall self : CodeEmbedder E,
    is_fitted (add_all E adds self) = is_fitted self
    /\ embedding_vectors (add_all E adds self) = embedding_vectors self
    /\ vectorizer (add_all E adds self) = vectorizer self.
Proof.
  induction adds as [|[f q] adds IH]; intros self; simpl; [auto|].
  destruct (IH (self_after (add_function_to_database E f q self)))
    as (H1 & H2 & H3).
  rewrite H1, H2, H3. rewrite QueryFacts.add_run. auto.
Qed.

Lemma add_all_keys (adds : list (Ast.FunctionDefNode * Q)) :
  forall self : CodeEmbedder E,
    NoDup (Py.keys (function_database self)) ->
    NoDup (Py.keys (function_database (add_all E adds self)))
    /\ length (function_database (add_all E adds self))
       <= length (function_database self) + length adds
    /\ (forall k, In k (Py.keys (function_database self)) ->
                  In k (Py.keys (function_database (add_all E adds self))))
    /\ (forall f q, In (f, q) adds ->
                    In (id_of f)
                      (Py.keys (function_database (add_all E adds self)))).
Proof.
  induction adds as [|[f q] adds IH]; intros self Hnd; simpl.
  - repeat split; [exact Hnd | lia | auto | intros f q []].
  - set (s1 := self_after (add_function_to_database E f q self)).
    assert (Hdb : function_database s1
                  = Py.dict_set (function_database self) (id_of f)
                      {| data_features := extract_code_features E f;
                         data_quality_score := q;
                         data_name := Ast.name f;
                         data_node := f |}).
    { unfold s1. rewrite QueryFacts.add_run. reflexivity. }
    destruct (IH s1) as (H1 & H2 & H3 & H4).
    { rewrite Hdb. apply keys_set_NoDup, Hnd. }
    repeat split.
    + exact H1.
    + pose proof (keys_set_length (function_database self) (id_of f)
                    {| data_features := extract_code_features E f;
                       data_quality_score := q;
                       data_name := Ast.name f;
                       data_node := f |}) as Hl.
      rewrite <- Hdb in Hl. lia.
    + intros k Hk. apply H3. rewrite Hdb.
      destruct (DictFacts.keys_set (function_database self) (id_of f)
                  {| data_features := extract_code_features E f;
                     data_quality_score := q;
                     data_name := Ast.name f;
                     data_node := f |}) as (tail & Ht).
      rewrite Ht. apply in_or_app. auto.
    + intros g q' [Heq | Hin].
      * injection Heq as <- <-. apply H3. rewrite Hdb. apply key_after_set.
      * apply (H4 g q' Hin).
Qed.

End WithEnv.

End CorpusFacts.

(** X8. Adding a function again with another quality score keeps the ids
    and their order, replaces the score stored under its id by the new one,
    and leaves the record of every other id as it was. *)
Theorem readd_overwrites_score
    (E : Env) (f : Ast.FunctionDefNode) (q q' : Q) (self : CodeEmbedder E) :
  let id :=
    (Ast.name f ++ "_"
     ++ substring 0 8 (md5_hexdigest E (extract_code_features E f)))%string in
  let first := self_after (add_function_to_database E f q self) in
  let second := self_after (add_function_to_database E f q' first) in
  Py.keys (function_database second) = Py.keys (function_database first)
  /\ option_map data_quality_score
       (Py.dict_get (function_database first) id) = Some q
  /\ option_map data_quality_score
       (Py.dict_get (function_database second) id) = Some q'
  /\ (forall k, k <> id ->
        Py.dict_get (function_database second) k
        = Py.dict_get (function_database self) k).
Proof.
  intros id first second. unfold second, first.
  rewrite !QueryFacts.add_run. unfold self_after. cbn [fst snd function_database].
  fold id. repeat split.
  - apply CorpusFacts.keys_set_present, CorpusFacts.key_after_set.
  - now rewrite DictFacts.dict_get_set.
  - now rewrite DictFacts.dict_get_set.
  - intros k Hk. now rewrite !CorpusFacts.dict_get_set_other by exact Hk.
Qed.

(** X9. A corpus built by [add_function_to_database] calls alone, from a
    fresh embedder: the ids are distinct, there are at most as many records
    as calls, the id of every function added is a key, and the embedder has
    no [is_fitted] yet, so that any query raises [AttributeError]. *)
Theorem corpus_of_adds
    (E : Env) (adds : list (Ast.FunctionDefNode * Q)) :
  let self := add_all E adds (__init__ E) in
  NoDup (Py.keys (function_database self))
  /\ length (function_database self) <= length adds
  /\ (forall f q,
        In (f, q) adds ->
        In (Ast.name f ++ "_"
            ++ substring 0 8 (md5_hexdigest E (extract_code_features E f)))%string
          (Py.keys (function_database self)))
  /\ is_fitted self = None
  /\ (forall target top_k,
        find_similar_functions E target top_k self
        = (inl (AttributeError "is_fitted"), self, [])).
Proof.
  intros self.
  destruct (CorpusFacts.add_all_keys E adds (__init__ E)) as (H1 & H2 & _ & H4).
  { constructor. }
  destruct (CorpusFacts.add_all_unfitted E adds (__init__ E)) as (Hf & _).
  fold self in H1, H2, H4, Hf. simpl in H2, Hf.
  repeat split; try assumption.
  intros target top_k. unfold find_similar_functions, bind, getattr.
  rewrite Hf. reflexivity.
Qed.

(* ================================================================== *)
(** ** Queries with any [top_k] *)

Module SliceFacts.

(** For [top_k <= 0] the slice [[-top_k:]] drops the first [-top_k]
    items. *)
Lemma slice_drop {A} (l : list A) (top_k : Z) :
  (top_k <= 0)%Z ->
  Py.slice_from (- top_k) l
  = skipn (Nat.min (Z.to_nat (- top_k)) (length l)) l.
Proof.
  intros Hk. unfold Py.slice_from.
  destruct (- top_k <? 0)%Z eqn:Hlt; [apply Z.ltb_lt in Hlt; lia|].
  f_equal. lia.
Qed.

Section Suffix.

Variables (E : Env) (row : list Q) (d : nat).
Hypothesis HE : ArgsortOk E.

Let order := argsort E row.

Lemma suffix_split : order = firstn d order ++ skipn d order.
Proof. symmetry. apply firstn_skipn. Qed.

Lemma suffix_length :
  length (rev (skipn d order)) = length row - d.
Proof.
  rewrite length_rev, length_skipn. unfold order.
  now rewrite (RankFacts.argsort_length E row HE).
Qed.

Lemma suffix_NoDup : NoDup (rev (skipn d order)).
Proof.
  apply NoDup_rev.
  pose proof (RankFacts.argsort_NoDup E row HE) as Hn. fold order in Hn.
  rewrite suffix_split in Hn. apply NoDup_app_remove_l in Hn. exact Hn.
Qed.

Lemma suffix_descending :
  StronglySorted (fun i j => (at_ row j <= at_ row i)%Q)
    (rev (skipn d order)).
Proof.
  apply (SortedFacts.StronglySorted_rev
           (fun i j => (at_ row i <= at_ row j)%Q)).
  destruct (HE row) as [_ Hs]. fold order in Hs.
  rewrite suffix_split in Hs.
  apply SortedFacts.StronglySorted_app_inv in Hs. tauto.
Qed.

Lemma suffix_highest (i j : nat) :
  In i (rev (skipn d order)) ->
  j < length row -> ~ In j (rev (skipn d order)) ->
  (at_ row j <= at_ row i)%Q.
Proof.
  rewrite <- !in_rev. intros Hi Hj Hnj.
  destruct (HE row) as [_ Hs]. fold order in Hs.
  rewrite suffix_split in Hs.
  apply SortedFacts.StronglySorted_app_inv in Hs.
  destruct Hs as (_ & _ & Hcross). apply Hcross; [| exact Hi].
  apply (RankFacts.argsort_In E row HE) in Hj. fold order in Hj.
  rewrite suffix_split in Hj. apply in_app_or in Hj. tauto.
Qed.

End Suffix.

End SliceFacts.

(** X10. With [top_k <= 0] the ranking line does not return an empty
    list: it drops the [-top_k] least similar rows and ranks all the
    others, in descending order of similarity; [top_k = 0] ranks every
    row. *)
Theorem rank_non_positive_top_k (E : Env) (row : list Q) (top_k : Z) :
  ArgsortOk E ->
  (top_k <= 0)%Z ->
  let ranked := similar_indices E row top_k in
  length ranked = length row - Z.to_nat (- top_k)
  /\ NoDup ranked
  /\ StronglySorted (fun i j => (at_ row j <= at_ row i)%Q) ranked
  /\ (forall i j,
        In i ranked -> j < length row -> ~ In j ranked ->
        (at_ row j <= at_ row i)%Q)
  /\ (top_k = 0%Z -> Permutation ranked (seq 0 (length row))).
Proof.
  intros HE Hk ranked. unfold ranked, similar_indices, Py.reversed.
  rewrite SliceFacts.slice_drop by exact Hk.
  rewrite (RankFacts.argsort_length E row HE).
  set (d := Nat.min (Z.to_nat (- top_k)) (length row)).
  repeat split.
  - rewrite (SliceFacts.suffix_length E row d HE). unfold d. lia.
  - apply SliceFacts.suffix_NoDup, HE.
  - apply SliceFacts.suffix_descending, HE.
  - apply SliceFacts.suffix_highest, HE.
  - intros ->. unfold d. simpl.
    eapply Permutation_trans; [apply Permutation_sym, Permutation_rev|].
    apply (HE row).
Qed.

Lemma rank_non_positive_top_k_witness :
  let row := [1 # 7; 2 # 3; 1 # 7; 1 # 2] in
  let ranked := similar_indices Demo.env row (-1) in
  length ranked = length row - Z.to_nat (- (-1))
  /\ NoDup ranked
  /\ StronglySorted (fun i j => (at_ row j <= at_ row i)%Q) ranked
  /\ (forall i j,
        In i ranked -> j < length row -> ~ In j ranked ->
        (at_ row j <= at_ row i)%Q)
  /\ ((-1)%Z = 0%Z -> Permutation ranked (seq 0 (length row))).
Proof.
  exact (rank_non_positive_top_k Demo.env [1 # 7; 2 # 3; 1 # 7; 1 # 2] (-1)
           Demo_argsort_ok ltac:(lia)).
Defined.

Module EdgeFacts.

Section WithEnv.

Variable E : Env.
Hypothesis Hsort : ArgsortOk E.

(** The query on a fitted embedder, for a slice that drops [d] items of
    the ascending order: with a candidate left, the match of the row at
    position [d]; with none, the unbound local. *)
Lemma query_dropping (self : CodeEmbedder E) (X : Matrix)
    (snapshot : list string) (target : Ast.FunctionDefNode) (top_k : Z)
    (tv : Matrix) (row : list Q) (d : nat) :
  FittedOn self X snapshot ->
  transform E (vectorizer self) [extract_code_features E target] = Some tv ->
  nth_error (cosine_similarity E tv X) 0 = Some row ->
  length row = length snapshot ->
  Py.slice_from (- top_k) (argsort E row) = skipn d (argsort E row) ->
  (d < length row ->
   exists idx fid data,
     nth_error (argsort E row) d = Some idx
     /\ idx < length snapshot
     /\ nth_error snapshot idx = Some fid
     /\ Py.dict_get (function_database self) fid = Some data
     /\ find_similar_functions E target top_k self
        = (inr [ {| function_id := fid;
                    match_name := data_name data;
                    similarity := at_ row idx;
                    quality_score := data_quality_score data;
                    features := data_features data |} ],
           self, []))
  /\ (length row <= d ->
      find_similar_functions E target top_k self
      = (inl (UnboundLocalError "function_id"), self, [])).
Proof.
  intros (Hfit & Hemb & Hv & Hx & later & Hkeys) Htv Hrow Hlen Hslice.
  assert (Hsim : similar_indices E row top_k = rev (skipn d (argsort E row))).
  { unfold similar_indices, Py.reversed. now rewrite Hslice. }
  destruct (cosine_similarity E tv X) as [|row' sims] eqn:Hc;
    simpl in Hrow; [discriminate|]. injection Hrow as ->.
  split.
  - intros Hd.
    destruct (FindFacts.skipn_head d (argsort E row)) as (idx & rest & Hskip & Hnth).
    { rewrite (RankFacts.argsort_length E row Hsort). exact Hd. }
    rewrite Hskip in Hsim. simpl in Hsim.
    assert (Hvalid : forall j, In j (rev rest ++ [idx]) ->
                               j < length (Py.keys (function_database self))).
    { intros j Hj. rewrite <- Hsim in Hj.
      apply (QueryFacts.similar_indices_rows E row top_k j Hsort) in Hj.
      rewrite Hkeys, length_app. lia. }
    assert (Hidx : idx < length snapshot).
    { rewrite <- Hlen.
      apply (QueryFacts.similar_indices_rows E row top_k idx Hsort).
      rewrite Hsim. apply in_or_app. simpl. auto. }
    destruct (QueryFacts.for_idx_last (function_database self) (rev rest) idx
                None Hvalid) as (fid & data & Hfid & Hget & Hloop).
    exists idx, fid, data. repeat split.
    + exact Hnth.
    + exact Hidx.
    + rewrite Hkeys, nth_error_app1 in Hfid by exact Hidx. exact Hfid.
    + exact Hget.
    + unfold find_similar_functions, bind, getattr, get, lift, ret.
      rewrite Hfit. simpl. rewrite Htv. simpl. rewrite Hemb. simpl.
      rewrite Hc. simpl. rewrite Hsim, Hloop. simpl.
      rewrite (nth_error_nth' row 0%Q) by lia. reflexivity.
  - intros Hd.
    rewrite skipn_all2 in Hsim
      by (rewrite (RankFacts.argsort_length E row Hsort); exact Hd).
    simpl in Hsim.
    unfold find_similar_functions, bind, getattr, get, lift, ret, raise.
    rewrite Hfit. simpl. rewrite Htv. simpl. rewrite Hemb. simpl.
    rewrite Hc. simpl. rewrite Hsim. reflexivity.
Qed.

(** The first index of the ascending order has the least similarity. *)
Lemma argsort_head_least (row : list Q) (idx : nat) :
  nth_error (argsort E row) 0 = Some idx ->
  forall j, j < length row -> (at_ row idx <= at_ row j)%Q.
Proof.
  intros Hhd j Hj.
  destruct (Hsort row) as [_ Hs].
  apply (RankFacts.argsort_In E row Hsort) in Hj.
  destruct (argsort E row) as [|i order]; [discriminate|].
  simpl in Hhd. injection Hhd as ->.
  inversion Hs as [|? ? _ Hall]; subst.
  destruct Hj as [<- | Hj]; [apply Qle_refl|].
  rewrite Forall_forall in Hall. apply Hall, Hj.
Qed.

End WithEnv.

End EdgeFacts.

(** X11. On an embedder fitted on a non-empty corpus, a query with
    [top_k <= 0] that leaves a candidate ([-top_k < rows]) returns one
    match: that of the row just above the [-top_k] least similar ones. For
    [top_k = 0] it is the least similar row of all. *)
Theorem find_similar_non_positive_top_k
    (E : Env) (self : CodeEmbedder E) (later : list (Ast.FunctionDefNode * Q))
    (target : Ast.FunctionDefNode) (top_k : Z) :
  ArgsortOk E ->
  SklearnOk E ->
  (top_k <= 0)%Z ->
  (- top_k < Z.of_nat (length (function_database self)))%Z ->
  let now := add_all E later (self_after (fit_embeddings E self)) in
  let snapshot := Py.keys (function_database self) in
  exists X tv row idx fid data,
    embedding_vectors now = Some X
    /\ transform E (vectorizer now) [extract_code_features E target] = Some tv
    /\ nth_error (cosine_similarity E tv X) 0 = Some row
    /\ length row = length snapshot
    /\ nth_error (argsort E row) (Z.to_nat (- top_k)) = Some idx
    /\ (top_k = 0%Z ->
        forall j, j < length row -> (at_ row idx <= at_ row j)%Q)
    /\ nth_error snapshot idx = Some fid
    /\ Py.dict_get (function_database now) fid = Some data
    /\ find_similar_functions E target top_k now
       = (inr [ {| function_id := fid;
                   match_name := data_name data;
                   similarity := at_ row idx;
                   quality_score := data_quality_score data;
                   features := data_features data |} ],
          now, []).
Proof.
  intros Hsort Hsk Hk Hrows now snapshot.
  assert (Hdb : function_database self <> []).
  { intros H. rewrite H in Hrows. simpl in Hrows. lia. }
  destruct (QueryFacts.fit_FittedOn E self Hsk Hdb) as (X & HF & _).
  apply (QueryFacts.add_all_FittedOn E later) in HF. fold now snapshot in HF.
  destruct (FindFacts.query_row E Hsk now X snapshot target HF)
    as (tv & row & Htv & Hrow & Hlen).
  assert (Hn : length row = length (function_database self)).
  { rewrite Hlen. unfold snapshot, Py.keys. apply length_map. }
  pose proof (SliceFacts.slice_drop (argsort E row) top_k Hk) as Hslice.
  rewrite (RankFacts.argsort_length E row Hsort) in Hslice.
  replace (Nat.min (Z.to_nat (- top_k)) (length row))
    with (Z.to_nat (- top_k)) in Hslice by lia.
  destruct (EdgeFacts.query_dropping E Hsort now X snapshot target top_k tv row
              (Z.to_nat (- top_k)) HF Htv Hrow Hlen Hslice) as [Hsome _].
  destruct Hsome as (idx & fid & data & Hnth & _ & Hfid & Hget & Hrun);
    [lia|].
  exists X, tv, row, idx, fid, data.
  destruct HF as (_ & Hemb & _).
  repeat split; try assumption.
  intros -> j Hj. simpl in Hnth.
  eapply EdgeFacts.argsort_head_least; eassumption.
Qed.

(** X12. On an embedder fitted on a corpus of [rows] records, a query with
    [top_k <= -rows] raises: the slice is empty, the loop does not run and
    [function_id] is read unbound. The embedder is left as it is. *)
Theorem find_similar_no_candidate_raises
    (E : Env) (self : CodeEmbedder E) (later : list (Ast.FunctionDefNode * Q))
    (target : Ast.FunctionDefNode) (top_k : Z) :
  ArgsortOk E ->
  SklearnOk E ->
  function_database self <> [] ->
  (top_k <= - Z.of_nat (length (function_database self)))%Z ->
  let now := add_all E later (self_after (fit_embeddings E self)) in
  find_similar_functions E target top_k now
  = (inl (UnboundLocalError "function_id"), now, []).
Proof.
  intros Hsort Hsk Hdb Hk now.
  destruct (QueryFacts.fit_FittedOn E self Hsk Hdb) as (X & HF & _).
  apply (QueryFacts.add_all_FittedOn E later) in HF. fold now in HF.
  destruct (FindFacts.query_row E Hsk now X _ target HF)
    as (tv & row & Htv & Hrow & Hlen).
  assert (Hn : length row = length (function_database self)).
  { rewrite Hlen. unfold Py.keys. apply length_map. }
  pose proof (SliceFacts.slice_drop (argsort E row) top_k ltac:(lia)) as Hslice.
  rewrite (RankFacts.argsort_length E row Hsort) in Hslice.
  replace (Nat.min (Z.to_nat (- top_k)) (length row))
    with (length row) in Hslice by lia.
  destruct (EdgeFacts.query_dropping E Hsort now X _ target top_k tv row
              (length row) HF Htv Hrow Hlen Hslice) as [_ Hnone].
  apply Hnone. lia.
Qed.

(** X13. A query never changes the embedder, whether it returns or raises,
    and it prints nothing unless [is_fitted] is false. *)
Theorem find_similar_read_only
    (E : Env) (self : CodeEmbedder E) (target : Ast.FunctionDefNode)
    (top_k : Z) :
  self_after (find_similar_functions E target top_k self) = self
  /\ (is_fitted self <> Some false ->
      printed (find_similar_functions E target top_k self) = []).
Proof.
  unfold find_similar_functions, bind, getattr, get, lift, ret, raise, print,
    self_after, printed.
  destruct (is_fitted self) as [[|]|]; simpl;
    [| split; [reflexivity | congruence] | split; reflexivity].
  destruct (transform E (vectorizer self) _); simpl;
    [| split; reflexivity].
  destruct (embedding_vectors self); simpl; [| split; reflexivity].
  destruct (cosine_similarity E _ _) as [|row sims]; simpl;
    [split; reflexivity|].
  destruct (for_idx _ _ _ _) as [e | [[[idx fid] data]|]]; simpl;
    try (split; reflexivity).
  destruct (nth_error row idx); simpl; split; reflexivity.
Qed.

(** X14. On a non-empty corpus [fit_embeddings] raises nothing, leaves the
    corpus as it is and brings the model in step with it: [is_fitted] is
    true, the vectorizer is fitted and the matrix has one row per record
    of the corpus as it is now, whatever was fitted before. It prints the
    number of records and the size of the vocabulary. *)
Theorem fit_brings_in_step (E : Env) (self : CodeEmbedder E) :
  SklearnOk E ->
  function_database self <> [] ->
  let run := fit_embeddings E self in
  value run = inr tt
  /\ function_database (self_after run) = function_database self
  /\ is_fitted (self_after run) = Some true
  /\ VFitted E (vectorizer (self_after run))
  /\ (exists X,
        embedding_vectors (self_after run) = Some X
        /\ length X = length (function_database self))
  /\ printed run
     = [ ("Learned embeddings for "
          ++ Py.str_of_nat (length (function_database self))
          ++ " functions")%string;
         ("Vocabulary size : "
          ++ Py.str_of_nat
               (vocabulary_len E (vectorizer (self_after run))))%string ].
Proof.
  intros (Hv & Hrows & _) Hdb run. unfold run.
  rewrite (QueryFacts.fit_nonempty E self Hdb).
  unfold value, self_after, printed. cbn [fst snd].
  cbn [function_database is_fitted vectorizer embedding_vectors].
  repeat split.
  - apply Hv.
  - eexists. split; [reflexivity|].
    rewrite Hrows. unfold Py.values. now rewrite !length_map.
  - unfold Py.values. now rewrite !length_map.
Qed.

Module DistinctFacts.

Lemma structural_not_signature (t s : string) :
  In t structural_tokens ->
  t <> ("func_" ++ s)%string /\ t <> ("args_" ++ s)%string.
Proof.
  unfold structural_tokens, operation_tokens. simpl. intros H.
  repeat (destruct H as [<- | H]; [split; discriminate|]).
  destruct H.
Qed.

Lemma complexity_NoDup (node : Ast.AST) :
  NoDup (_extract_complexity_features node)
  /\ length (_extract_complexity_features node) <= 2
  /\ forall t, In t (_extract_complexity_features node) ->
               t = "High_conditional_complexity"
               \/ t = "High_loop_complexity".
Proof.
  unfold _extract_complexity_features.
  destruct (3 <? _); destruct (2 <? _); simpl;
    (split; [repeat constructor; simpl; intuition discriminate
            | split; [lia | intuition]]).
Qed.

Lemma return_pattern_in (node : Ast.AST) :
  In (_extract_return_pattern node)
    ["return_none"; "return_single"; "return_multiple"].
Proof.
  unfold _extract_return_pattern.
  destruct (filter _ _) as [|r [|r' rs]]; simpl; auto.
Qed.

End DistinctFacts.

(** X15. No token occurs twice in the feature list of a function, which
    has between 3 and 11 tokens. *)
Theorem feature_tokens_distinct (E : Env) (f : Ast.FunctionDefNode) :
  SetIterOk E ->
  NoDup (feature_list E f)
  /\ 3 <= length (feature_list E f) <= 11.
Proof.
  intros HE. rewrite (TokenFacts.feature_list_eq E f).
  set (node := Ast.as_node f).
  destruct (emitted_operations E node HE) as (Hnd & Hincl & _).
  destruct (DistinctFacts.complexity_NoDup node) as (Hcn & Hcl & Hcin).
  pose proof (DistinctFacts.return_pattern_in node) as Hr.
  pose proof (TokenFacts.channels_structural E HE node) as Hall.
  rewrite Forall_forall in Hall.
  assert (Hrest : NoDup (_extract_operations E node
                         ++ _extract_complexity_features node
                         ++ [_extract_return_pattern node])).
  { apply NoDup_app; [exact Hnd | |].
    - apply NoDup_app; [exact Hcn | repeat constructor; simpl; tauto |].
      intros t Ht [<- | []]. apply Hcin in Ht.
      simpl in Hr. intuition congruence.
    - intros t Ht Ht'. apply Hincl in Ht.
      unfold operation_tokens in Ht. simpl in Ht.
      apply in_app_or in Ht'. destruct Ht' as [Hc | [<- | []]].
      + apply Hcin in Hc. intuition congruence.
      + simpl in Hr. intuition congruence. }
  split.
  - constructor; [| constructor; [| exact Hrest]].
    + intros [Heq | Hin]; [discriminate|].
      apply Hall in Hin.
      apply (DistinctFacts.structural_not_signature _ (Ast.name f)) in Hin.
      tauto.
    + intros Hin. apply Hall in Hin.
      apply (DistinctFacts.structural_not_signature _
               (Py.str_of_nat (length (Ast.args_ (Ast.args f))))) in Hin.
      tauto.
  - simpl. rewrite !length_app. simpl.
    assert (length (_extract_operations E node) <= 6).
    { apply (NoDup_incl_length Hnd Hincl). }
    lia.
Qed.

(* ================================================================== *)
(** ** The validator *)

Module ValidatorFacts.

Lemma fold_findings (code : string) (l : list string) :
  forall acc,
    fold_left
      (fun issues dangerous_import =>
         if contains dangerous_import code
         then issues
              ++ [("Dangerous import detected: " ++ dangerous_import)%string]
         else issues)
      l acc
    = acc ++ map security_finding (filter (fun d => contains d code) l).
Proof.
  induction l as [|d l IH]; intros acc; simpl.
  - now rewrite app_nil_r.
  - rewrite IH. destruct (contains d code); simpl; [| reflexivity].
    now rewrite <- app_assoc.
Qed.

Lemma security_eq (code : string) :
  validate_code_security code
  = map security_finding (filter (fun d => contains d code) dangerous_imports)
    ++ (if contains "input()" code
           && (contains "eval" code || contains "exec" code)
        then ["Potential code injection with input() and eval/exec"]
        else []).
Proof.
  unfold validate_code_security. rewrite fold_findings.
  cbn [existsb app]. rewrite orb_false_r.
  destruct (contains "input()" code && _);
    [reflexivity | now rewrite app_nil_r].
Qed.

Lemma verdict_iff {A} (issues : list A) :
  match issues with [] => true | _ :: _ => false end = true <-> issues = [].
Proof. destruct issues; split; congruence. Qed.

Lemma all_blank_lstrip (s : string) :
  PyStr.all_blank s = true -> PyStr.lstrip s = EmptyString.
Proof.
  induction s as [|c s IH]; simpl; [reflexivity|].
  intros H. apply andb_prop in H. destruct H as [-> H]. apply IH, H.
Qed.

End ValidatorFacts.

(** X16. [validate_code_security] returns no finding exactly when the code
    holds none of the seven substrings of [dangerous_imports]; the
    injection finding never comes alone, since the [eval] or [exec] that
    triggers it is reported as a dangerous import as well. *)
Theorem security_findings (code : string) :
  (validate_code_security code = []
   <-> forallb (fun d => negb (contains d code)) dangerous_imports = true)
  /\ (In "Potential code injection with input() and eval/exec"
        (validate_code_security code) ->
      In "Dangerous import detected: eval" (validate_code_security code)
      \/ In "Dangerous import detected: exec" (validate_code_security code)).
Proof.
  rewrite ValidatorFacts.security_eq.
  unfold dangerous_imports. cbn [filter forallb].
  destruct (contains "os.system" code), (contains "subprocess.call" code),
    (contains "eval" code), (contains "exec" code),
    (contains "pickle.loads" code), (contains "marshal.loads" code),
    (contains "yaml.load" code), (contains "input()" code);
    cbn; (split; [split; (discriminate || reflexivity) | intuition discriminate]).
Qed.

(** X17. [validate_analysis_input] rejects blank code with the single
    issue [Code input cannot be empty], without parsing it; whenever it
    returns, its boolean is true exactly when its list of issues is empty;
    and it only fails to return when the parser raises something other
    than [SyntaxError]. *)
Theorem analysis_input_verdict
    (ast_parse : string -> parse_outcome) (code analysis_type : string) :
  (PyStr.all_blank code = true ->
   validate_analysis_input ast_parse code analysis_type
   = Some (false, ["Code input cannot be empty"]))
  /\ (forall ok issues,
        validate_analysis_input ast_parse code analysis_type
        = Some (ok, issues) ->
        (ok = true <-> issues = []))
  /\ (validate_analysis_input ast_parse code analysis_type = None ->
      ast_parse code = RaisedOther).
Proof.
  unfold validate_analysis_input.
  split; [| split].
  - intros Hb. unfold PyStr.strip.
    rewrite (ValidatorFacts.all_blank_lstrip code Hb).
    change (PyStr.rstrip EmptyString) with EmptyString.
    cbn. now rewrite orb_true_r.
  - intros ok issues.
    destruct (negb (PyStr.truthy code) || negb (PyStr.truthy (PyStr.strip code))).
    + intros H. injection H as <- <-. split; discriminate.
    + unfold validate_python_syntax.
      destruct (ast_parse code); [| | discriminate];
        intros H; injection H as <- <-; apply ValidatorFacts.verdict_iff.
  - destruct (negb (PyStr.truthy code) || negb (PyStr.truthy (PyStr.strip code)));
      [discriminate|].
    unfold validate_python_syntax.
    destruct (ast_parse code); [discriminate | discriminate | reflexivity].
Qed.

(* ================================================================== *)
(** ** Rules and patterns on the number of arguments *)

(** X18. The two analyses of [EmbeddingAnalyzer] disagree on long argument
    lists: [_rule_based_analysis] reports every function with more than 4
    entries in [args.args], while [_pattern_based_analysis] has a
    concerning pattern for 5, 6 or 7 only, so that from 8 on the rule fires
    and the pattern is silent. *)
Theorem rules_and_patterns_on_arguments
    (E : Env) (f : Ast.FunctionDefNode) :
  SetIterOk E ->
  PyStr.no_blank (Ast.name f) = true ->
  let n := length (Ast.args_ (Ast.args f)) in
  let many :=
    ("Function " ++ Ast.name f ++ " : many arguments ("
     ++ Py.str_of_nat n ++ ")")%string in
  (4 < n <-> In many (_rule_based_analysis f))
  /\ (issues_matches E f <> [] -> In many (_rule_based_analysis f))
  /\ (8 <= n -> In many (_rule_based_analysis f) /\ issues_matches E f = []).
Proof.
  intros HE Hname n many.
  pose proof (TokenFacts.issues_matches_eq E HE f Hname) as Hi. fold n in Hi.
  assert (Hrule : 4 < n <-> In many (_rule_based_analysis f)).
  { unfold _rule_based_analysis. fold n. fold many.
    destruct (Nat.ltb_spec 4 n) as [H4 | H4];
      destruct (30 <? length (Ast.body f)); simpl; split; intros H;
      try tauto; try lia.
    destruct H as [H | []]. exfalso. unfold many in H.
    injection H as H. apply StrFacts.append_inv_head in H. discriminate H. }
  split; [exact Hrule|]. split.
  - intros Hne. apply Hrule. rewrite Hi in Hne.
    destruct (Nat.leb_spec 5 n); [lia|]. simpl in Hne. congruence.
  - intros H8. split; [apply Hrule; lia|].
    rewrite Hi. destruct (Nat.leb_spec n 7); [lia|].
    now rewrite andb_false_r.
Qed.

(* ================================================================== *)
(** ** The properties on the examples *)

Lemma concerning_patterns_only_args_witness :
  issues_matches Demo.env MoreSamples.configure = ["args_5"]
  /\ exists good,
       length good <= 1
       /\ _pattern_based_analysis Demo.env MoreSamples.configure
          = good ++ ["Concerning patterns : args_5"].
Proof.
  exact (concerning_patterns_only_args Demo.env MoreSamples.configure
           Demo_set_iter_ok eq_refl).
Defined.

Lemma rules_and_patterns_on_arguments_witness :
  In "Function configure : many arguments (8)"
    (_rule_based_analysis MoreSamples.configure_more)
  /\ issues_matches Demo.env MoreSamples.configure_more = [].
Proof.
  destruct (rules_and_patterns_on_arguments Demo.env
              MoreSamples.configure_more Demo_set_iter_ok eq_refl)
    as (_ & _ & H).
  apply H. vm_compute. lia.
Defined.

Lemma feature_tokens_distinct_witness :
  NoDup (feature_list Demo.env Samples.validate_input)
  /\ 3 <= length (feature_list Demo.env Samples.validate_input) <= 11.
Proof.
  exact (feature_tokens_distinct Demo.env Samples.validate_input
           Demo_set_iter_ok).
Defined.

Lemma fit_brings_in_step_witness :
  let run := fit_embeddings Demo.env two_records in
  value run = inr tt
  /\ is_fitted (self_after run) = Some true
  /\ exists X, embedding_vectors (self_after run) = Some X /\ length X = 2.
Proof.
  destruct (fit_brings_in_step Demo.env two_records Demo_sklearn_ok
              two_records_nonempty) as (H1 & _ & H3 & _ & H5 & _).
  split; [exact H1|]. split; [exact H3|]. exact H5.
Defined.

Lemma similar_analysis_uses_third_witness :
  exists insights,
    _similar_function_analysis Demo.env MoreSamples.render MoreSamples.render
      Samples.compute_order_summary
      (self_after (fit_embeddings Demo.env three_records))
    = (inr insights, self_after (fit_embeddings Demo.env three_records), []).
Proof.
  destruct (similar_analysis_uses_third Demo.env MoreSamples.render
              MoreSamples.render three_records []
              Samples.compute_order_summary
              Demo_argsort_ok Demo_sklearn_ok three_records_nonempty)
    as (X & tv & row & idx & fid & data & _ & _ & _ & _ & _ & _ & Hrun).
  eexists. exact Hrun.
Defined.

Lemma find_similar_non_positive_top_k_witness :
  exists m,
    find_similar_functions Demo.env Samples.compute_order_summary 0
      (self_after (fit_embeddings Demo.env three_records))
    = (inr [m], self_after (fit_embeddings Demo.env three_records), [])
    /\ In (function_id m) (Py.keys (function_database three_records)).
Proof.
  destruct (find_similar_non_positive_top_k Demo.env three_records []
              Samples.compute_order_summary 0
              Demo_argsort_ok Demo_sklearn_ok ltac:(lia)
              ltac:(vm_compute; reflexivity))
    as (X & tv & row & idx & fid & data
        & _ & _ & _ & _ & _ & _ & Hkey & _ & Hrun).
  eexists. split; [exact Hrun|].
  apply (nth_error_In _ idx). exact Hkey.
Defined.

Lemma find_similar_no_candidate_raises_witness :
  find_similar_functions Demo.env Samples.compute_order_summary (-3)
    (self_after (fit_embeddings Demo.env three_records))
  = (inl (UnboundLocalError "function_id"),
     self_after (fit_embeddings Demo.env three_records), []).
Proof.
  exact (find_similar_no_candidate_raises Demo.env three_records []
           Samples.compute_order_summary (-3)
           Demo_argsort_ok Demo_sklearn_ok three_records_nonempty
           ltac:(vm_compute; discriminate)).
Defined.

(* ================================================================== *)
(** ** The similarity values *)

(** The cosine of the demonstration, which computes in the rationals, lies
    in [0, 1] and is 1 on equal rows that are not null. *)
Module CosineFacts.








End CosineFacts.

Module DemoCosine.







End DemoCosine.

Module SimilarityFacts.



End SimilarityFacts.





